(** * django-tracking: the request middleware of [tracking/middleware.py]

    A shallow embedding of the four middleware classes
    ([VisitorTrackingMiddleware], [VisitorCleanUpMiddleware],
    [BannedIPMiddleware], [GoogleAnalyticsMiddleware]) and the properties
    of visitor identity resolution, session windows, exclusion, banning,
    clean-up and beacon dispatch.

    Conventions.  A [datetime] is a [Z] counting microseconds, so that
    [timedelta(minutes=5)] and [timedelta(hours=1)] are exact.  Python
    byte strings are [string].  The [Visitor] table is a list of rows with
    a primary key; a query set is the sub-list a predicate selects.  An
    exception is a value of [exn]; code that touches the table runs in a
    small state-and-exception monad [M]. *)

From Stdlib Require Import ZArith List String Ascii Bool Lia DecimalString.
Import ListNotations.

Local Open Scope string_scope.
Local Open Scope list_scope.
Local Open Scope Z_scope.

(** ** Python strings *)

Module Str.

(** [s.startswith(p)] *)
Fixpoint startswith (s p : string) {struct p} : bool :=
  match p with
  | EmptyString => true
  | String c p' =>
      match s with
      | EmptyString => false
      | String d s' => Ascii.eqb c d && startswith s' p'
      end
  end.

(** [s.find(sub)], scanning from offset [i]: the lowest index at which
    [sub] occurs, or [-1]. *)
Fixpoint find_from (s sub : string) (i : Z) : Z :=
  if startswith s sub then i
  else match s with
       | EmptyString => -1
       | String _ s' => find_from s' sub (i + 1)
       end.

Definition find (s sub : string) : Z := find_from s sub 0.

(** [s[n:]] *)
Fixpoint drop (n : nat) (s : string) : string :=
  match n with
  | O => s
  | S n' => match s with
            | EmptyString => EmptyString
            | String _ s' => drop n' s'
            end
  end.

(** [x in xs] for a list of strings *)
Definition mem (x : string) (xs : list string) : bool :=
  existsb (String.eqb x) xs.

End Str.

(** ** Exceptions and the monad of database code *)

Inductive exn : Type :=
| DoesNotExist
| MultipleObjectsReturned
| Http404
| AttributeError
| URLError.

Inductive result (A : Type) : Type :=
| Ok (a : A)
| Raise (e : exn).

Arguments Ok {A} a.
Arguments Raise {A} e.

Definition exn_eqb (a b : exn) : bool :=
  match a, b with
  | DoesNotExist, DoesNotExist
  | MultipleObjectsReturned, MultipleObjectsReturned
  | Http404, Http404
  | AttributeError, AttributeError
  | URLError, URLError => true
  | _, _ => false
  end.

(** ** Time *)

Definition datetime := Z.

Definition timedelta_minutes (m : Z) : Z := m * 60 * 1000000.
Definition timedelta_hours (h : Z) : Z := h * 3600 * 1000000.

(** ** The request *)

(** [request.user]: either the [AnonymousUser] or a stored user, known by
    its id. *)
Inductive django_user : Type :=
| AnonymousUser
| User (id : Z).

Record HttpRequest : Type := mkRequest {
  is_ajax : bool;
  session_session_key : string;
  META : list (string * string);
  path : string;
  request_user : django_user
}.

(** [d.get(key, default)] *)
Fixpoint dict_get (d : list (string * string)) (key default : string) : string :=
  match d with
  | [] => default
  | (k, v) :: d' => if String.eqb k key then v else dict_get d' key default
  end.

(** ** The Visitor table *)

(** Modelled from the spec: the [Visitor] model class of [tracking/models.py],
    which this module imports and which is not among the sources.  The fields
    are those of the data model; [pk] is the row's primary key, [None] on an
    instance that was never saved.  A field without a value is [None], a
    character field is the empty string, on a fresh instance. *)
Record Visitor : Type := mkVisitor {
  pk : option Z;
  session_key : string;
  ip_address : string;
  user : option Z;
  user_agent : string;
  referrer : string;
  url : string;
  page_views : Z;
  session_start : option datetime;
  last_update : option datetime
}.

(** [Visitor(session_key=..., ip_address=...)] *)
Definition Visitor_init (sk ip : string) : Visitor :=
  {| pk := None; session_key := sk; ip_address := ip; user := None;
     user_agent := ""; referrer := ""; url := ""; page_views := 0;
     session_start := None; last_update := None |}.

Definition set_session_key (v : Visitor) (sk : string) : Visitor :=
  {| pk := pk v; session_key := sk; ip_address := ip_address v;
     user := user v; user_agent := user_agent v; referrer := referrer v;
     url := url v; page_views := page_views v;
     session_start := session_start v; last_update := last_update v |}.

Definition set_pk (v : Visitor) (k : Z) : Visitor :=
  {| pk := Some k; session_key := session_key v; ip_address := ip_address v;
     user := user v; user_agent := user_agent v; referrer := referrer v;
     url := url v; page_views := page_views v;
     session_start := session_start v; last_update := last_update v |}.

(** The table: its rows in insertion order and the next key of the
    auto-increment sequence. *)
Record Store : Type := mkStore {
  rows : list Visitor;
  next_pk : Z
}.

Definition empty_store : Store := {| rows := []; next_pk := 1 |}.

Definition pk_is (k : Z) (v : Visitor) : bool :=
  match pk v with
  | Some j => j =? k
  | None => false
  end.

(** Field lookups of the query sets used by the middleware. *)

(** [session_key=sk, ip_address=ip] *)
Definition by_session_and_ip (sk ip : string) (v : Visitor) : bool :=
  String.eqb (session_key v) sk && String.eqb (ip_address v) ip.

(** [last_update__gte=t] *)
Definition last_update_gte (t : datetime) (v : Visitor) : bool :=
  match last_update v with
  | Some u => t <=? u
  | None => false
  end.

(** [last_update__lte=t] *)
Definition last_update_lte (t : datetime) (v : Visitor) : bool :=
  match last_update v with
  | Some u => u <=? t
  | None => false
  end.

(** [ip_address=ip, user_agent=ua, last_update__gte=cutoff] *)
Definition by_ip_agent_since (ip ua : string) (cutoff : datetime) (v : Visitor) : bool :=
  String.eqb (ip_address v) ip && String.eqb (user_agent v) ua
  && last_update_gte cutoff v.

(** The monad: a computation reads and writes the table and ends in a value
    or an exception.  What was written before an exception stays written. *)
Definition M (A : Type) : Type := Store -> result A * Store.

Definition ret {A} (a : A) : M A := fun db => (Ok a, db).

Definition raise {A} (e : exn) : M A := fun db => (Raise e, db).

Definition bind {A B} (m : M A) (f : A -> M B) : M B :=
  fun db =>
    match m db with
    | (Ok a, db') => f a db'
    | (Raise e, db') => (Raise e, db')
    end.

(** [try: m  except e: h] *)
Definition try_except {A} (m : M A) (e : exn) (h : M A) : M A :=
  fun db =>
    match m db with
    | (Ok a, db') => (Ok a, db')
    | (Raise e', db') => if exn_eqb e' e then h db' else (Raise e', db')
    end.

Notation "x <- m ;; k" := (bind m (fun x => k))
  (at level 61, m at next level, right associativity).
Notation "m ;;; k" := (bind m (fun _ => k))
  (at level 61, right associativity).

(** [Visitor.objects.get(...)]: the one row the lookup selects;
    [DoesNotExist] when it selects none, [MultipleObjectsReturned] when it
    selects more than one. *)
Definition get_one (sel : list Visitor) : result Visitor :=
  match sel with
  | [] => Raise DoesNotExist
  | [v] => Ok v
  | _ :: _ :: _ => Raise MultipleObjectsReturned
  end.

Definition objects_get (p : Visitor -> bool) : M Visitor :=
  fun db => (get_one (filter p (rows db)), db).

(** [v.save()]: a row with the instance's key is overwritten; an instance
    whose key is not in the table is inserted under it; an instance without
    a key is inserted under the next key of the sequence.  This is a save that the
    database accepts: what the database itself may raise is not modelled. *)
Definition replace_row (k : Z) (v : Visitor) (rs : list Visitor) : list Visitor :=
  map (fun r => if pk_is k r then v else r) rs.

Definition save_row (v : Visitor) (db : Store) : Store :=
  match pk v with
  | Some k =>
      if existsb (pk_is k) (rows db)
      then {| rows := replace_row k v (rows db); next_pk := next_pk db |}
      else {| rows := rows db ++ [v]; next_pk := Z.max (next_pk db) (k + 1) |}
  | None =>
      {| rows := rows db ++ [set_pk v (next_pk db)];
         next_pk := next_pk db + 1 |}
  end.

Definition save (v : Visitor) : M unit := fun db => (Ok tt, save_row v db).

(** [Visitor.objects.filter(...).delete()] *)
Definition filter_delete (p : Visitor -> bool) : M unit :=
  fun db =>
    (Ok tt, {| rows := filter (fun v => negb (p v)) (rows db);
               next_pk := next_pk db |}).

(** ** What the middleware reads from outside this module *)

(** The tables and settings the middleware consults: the keywords of
    [UntrackedUserAgent.objects.all()], the list of
    [utils.get_untracked_prefixes()], the two media settings, the hours of
    [utils.get_cleanup_timeout()], the addresses of [BannedIP.objects.all()]
    and the analytics account. *)
Record Env : Type := mkEnv {
  untracked_user_agents : list string;
  untracked_prefixes : list string;
  MEDIA_URL : string;
  ADMIN_MEDIA_PREFIX : string;
  cleanup_timeout : Z;
  banned_ips : list string;
  GOOGLE_ANALYTICS_ID : string
}.

(** ** VisitorTrackingMiddleware *)

Module VisitorTrackingMiddleware.

Definition ip_of (request : HttpRequest) : string :=
  dict_get (META request) "REMOTE_ADDR" "".

Definition agent_of (request : HttpRequest) : string :=
  dict_get (META request) "HTTP_USER_AGENT" "".

(** The loop over the untracked user agents: does some keyword occur in the
    user agent. *)
Definition untracked_agent (env : Env) (request : HttpRequest) : bool :=
  existsb (fun keyword => negb (Str.find (agent_of request) keyword =? -1))
          (untracked_user_agents env).

(** [prefixes], after the two [append]s. *)
Definition prefixes (env : Env) : list string :=
  untracked_prefixes env ++ [MEDIA_URL env; ADMIN_MEDIA_PREFIX env].

(** The loop that computes [validURL]. *)
Definition validURL (env : Env) (request : HttpRequest) : bool :=
  negb (existsb (fun prefix => Str.startswith (path request) prefix)
                (prefixes env)).

(** Lines 67-82: the record this request belongs to. *)
Definition resolve (request : HttpRequest) (now : datetime) : M Visitor :=
  let session_key := session_session_key request in
  let ip_address := ip_of request in
  let user_agent := agent_of request in
  try_except
    (objects_get (by_session_and_ip session_key ip_address))
    DoesNotExist
    (try_except
       (let cutoff := now - timedelta_minutes 5 in
        visitor <- objects_get (by_ip_agent_since ip_address user_agent cutoff) ;;
        ret (set_session_key visitor session_key))
       DoesNotExist
       (ret (Visitor_init session_key ip_address))).

(** The test of lines 96-97: no [last_update], or one at least an hour old. *)
Definition window_restarts (now : datetime) (visitor : Visitor) : bool :=
  let one_hour_ago := now + timedelta_hours (-1) in
  match last_update visitor with
  | None => true
  | Some t => t <=? one_hour_ago
  end.

(** Lines 84-106: the fields written on the resolved record. *)
Definition touch (request : HttpRequest) (now : datetime) (visitor : Visitor) : Visitor :=
  let user :=
    match request_user request with
    | AnonymousUser => None
    | User id => Some id
    end in
  let restart := window_restarts now visitor in
  {| pk := pk visitor;
     session_key := session_key visitor;
     ip_address := ip_address visitor;
     user := user;
     user_agent := agent_of request;
     referrer := if restart
                 then dict_get (META request) "HTTP_REFERER" "unknown"
                 else referrer visitor;
     url := path request;
     page_views := (if restart then 0 else page_views visitor) + 1;
     session_start := if restart then Some now else session_start visitor;
     last_update := Some now |}.

Definition process_request (env : Env) (request : HttpRequest) (now : datetime) : M unit :=
  if is_ajax request then ret tt
  else if untracked_agent env request then ret tt
  else if validURL env request then
    visitor <- resolve request now ;;
    save (touch request now visitor)
  else ret tt.

(** A request the middleware tracks: it passes the three gates. *)
Definition tracked (env : Env) (request : HttpRequest) : bool :=
  negb (is_ajax request) && negb (untracked_agent env request)
  && validURL env request.

End VisitorTrackingMiddleware.

(** ** VisitorCleanUpMiddleware *)

Module VisitorCleanUpMiddleware.

Definition process_request (env : Env) (request : HttpRequest) (now : datetime) : M unit :=
  let timeout := now - timedelta_hours (cleanup_timeout env) in
  filter_delete (last_update_lte timeout).

End VisitorCleanUpMiddleware.

(** ** BannedIPMiddleware *)

Module BannedIPMiddleware.

Definition process_request (env : Env) (request : HttpRequest) (now : datetime) : M unit :=
  let ips := banned_ips env in
  if Str.mem (dict_get (META request) "REMOTE_ADDR" "") ips
  then raise Http404
  else ret tt.

End BannedIPMiddleware.

(** ** GoogleAnalyticsMiddleware *)

Record HttpResponse : Type := mkResponse {
  status_code : Z;
  content : string
}.

(** The values [random.randint] and the clock give one call. *)
Record Draws : Type := mkDraws {
  rand_request : Z;
  rand_cookie : Z;
  rand_number : Z;
  today : Z
}.

Module GoogleAnalyticsMiddleware.

Definition newline : ascii := Ascii.ascii_of_nat 10.

(** [(.*?)</title>] at the head of [s]: the shortest run of characters
    other than a newline that [</title>] follows. *)
Fixpoint lazy_group (s : string) : option string :=
  if Str.startswith s "</title>" then Some ""
  else match s with
       | EmptyString => None
       | String c s' =>
           if Ascii.eqb c newline then None
           else match lazy_group s' with
                | Some g => Some (String c g)
                | None => None
                end
       end.

(** [<title>(.*?)</title>] at the head of [s]: group 1 of the match. *)
Definition match_here (s : string) : option string :=
  if Str.startswith s "<title>" then lazy_group (Str.drop 7 s) else None.

(** [title_re.search(s)]: the match at the leftmost offset that has one,
    kept as its group 1; [None] when no offset has one. *)
Fixpoint title_re_search (s : string) : option string :=
  match match_here s with
  | Some g => Some g
  | None => match s with
            | EmptyString => None
            | String _ s' => title_re_search s'
            end
  end.

(** [m.group(1)]; on [None] the attribute lookup fails. *)
Definition group1 (m : option string) : result string :=
  match m with
  | Some g => Ok g
  | None => Raise AttributeError
  end.

(** A bare [except:] clause: whatever is raised, the handler's value. *)
Definition try_except_all {A} (r : result A) (h : A) : result A :=
  match r with
  | Ok a => Ok a
  | Raise _ => Ok h
  end.

(** Lines 141-144: [try: title = ...  except: title = ''] *)
Definition extract_title (response : HttpResponse) : result string :=
  try_except_all (group1 (title_re_search (content response))) "".

(** [info] *)
Record Info : Type := mkInfo {
  info_id : string;
  info_host : string;
  info_path : string;
  info_referer : string;
  info_uservar : string;
  info_rand_request : Z;
  info_rand_cookie : Z;
  info_rand_number : Z;
  info_today : Z;
  info_resolution : string;
  info_color_depth : string;
  info_language : string;
  info_java : string;
  info_flash : string;
  info_title : string
}.

Definition info_of (env : Env) (draws : Draws)
    (request : HttpRequest) (title : string) : Info :=
  {| info_id := GOOGLE_ANALYTICS_ID env;
     info_host := dict_get (META request) "HTTP_HOST" "";
     info_path := dict_get (META request) "PATH_INFO" "/";
     info_referer := dict_get (META request) "HTTP_REFERER" "";
     info_uservar :=
       (dict_get (META request) "REMOTE_ADDR" "" ++ "; "
        ++ dict_get (META request) "HTTP_USER_AGENT" "unknown")%string;
     info_rand_request := rand_request draws;
     info_rand_cookie := rand_cookie draws;
     info_rand_number := rand_number draws;
     info_today := today draws;
     info_resolution := "-";
     info_color_depth := "-";
     info_language := "-";
     info_java := "-";
     info_flash := "-";
     info_title := title |}.

(** ['%s' % n] for an integer *)
Definition str_of_int (n : Z) : string :=
  DecimalString.NilZero.string_of_int (Z.to_int n).

(** [data]: the format string with the values of [info] put in. *)
Definition data_of (info : Info) : string :=
  let cookie := str_of_int (info_rand_cookie info) in
  let today := str_of_int (info_today info) in
  String.concat ""
    [ "utmwv=4.3&utmn="; str_of_int (info_rand_request info);
      "&utmsr="; info_resolution info;
      "&utmsc="; info_color_depth info;
      "&utmul="; info_language info;
      "&utmje="; info_java info;
      "&utmfl="; info_flash info;
      "&utmdt="; info_title info;
      "&utmhn="; info_host info;
      "&utmr="; info_referer info;
      "&utmp="; info_path info;
      "&utmac="; info_id info;
      "&utmcc=__utma%3D"; cookie; "."; str_of_int (info_rand_number info);
      "."; today; "."; today; "."; today; ".2%3B%2B__utmb%3D"; cookie;
      "%3B%2B__utmc%3D"; cookie; "%3B%2B__utmz%3D"; cookie; "."; today;
      ".2.2.utmccn%3D(direct)%7Cutmcsr%3D(direct)%7Cutmcmd%3D(none)%3B%2B__utmv%3D";
      cookie; "."; info_uservar info; "%3B" ].

Definition collector : string := "http://www.google-analytics.com/__utm.gif".

Section Dispatch.

(** [urllib2.urlopen(url, data)]: the network answers or the call raises. *)
Variable urlopen : string -> string -> result unit.

Definition process_response (env : Env) (draws : Draws)
    (request : HttpRequest) (response : HttpResponse) : result HttpResponse :=
  match extract_title response with
  | Raise e => Raise e
  | Ok title =>
      let info := info_of env draws request title in
      let data := data_of info in
      match urlopen collector data with
      | Raise e => Raise e
      | Ok _ => Ok response
      end
  end.

End Dispatch.

End GoogleAnalyticsMiddleware.

(** ** The handler's middleware loop *)

Inductive middleware : Type :=
| BannedIP
| VisitorCleanUp
| VisitorTracking.

Definition process_request_of (mw : middleware)
    : Env -> HttpRequest -> datetime -> M unit :=
  match mw with
  | BannedIP => BannedIPMiddleware.process_request
  | VisitorCleanUp => VisitorCleanUpMiddleware.process_request
  | VisitorTracking => VisitorTrackingMiddleware.process_request
  end.

(** One request through the installed request middleware, in order, each
    with the reading of the clock it gets; an exception ends the loop. *)
Fixpoint handle (env : Env) (request : HttpRequest)
    (chain : list (middleware * datetime)) : M unit :=
  match chain with
  | [] => ret tt
  | (mw, now) :: chain' =>
      process_request_of mw env request now ;;; handle env request chain'
  end.

(** A call of one middleware's [process_request]. *)
Record call : Type := mkCall {
  call_mw : middleware;
  call_request : HttpRequest;
  call_clock : datetime
}.

(** The table after a sequence of calls, whatever each one returned. *)
Definition step (env : Env) (db : Store) (c : call) : Store :=
  snd (process_request_of (call_mw c) env (call_request c) (call_clock c) db).

Definition run (env : Env) (calls : list call) (db : Store) : Store :=
  fold_left (step env) calls db.

(** ** Vocabulary of the properties *)

Import VisitorTrackingMiddleware.

(** Keys are primary: every row has one, below the sequence, and no two
    rows share one. *)
Definition wf (db : Store) : Prop :=
  NoDup (map pk (rows db))
  /\ Forall (fun v => exists k, pk v = Some k /\ k < next_pk db) (rows db).

(** What [save] leaves in the table for [v]: [v] itself, under the next key
    when it had none. *)
Definition stored (v : Visitor) (db : Store) : Visitor :=
  match pk v with
  | Some _ => v
  | None => set_pk v (next_pk db)
  end.

(** The lookups, read as propositions. *)

(** At most one row under every (session key, address) pair. *)
Definition unique_pairs (db : Store) : Prop :=
  forall sk ip,
    (List.length (filter (by_session_and_ip sk ip) (rows db)) <= 1)%nat.

Definition exact_match (sk ip : string) (v : Visitor) : Prop :=
  session_key v = sk /\ ip_address v = ip.

Definition recent_match (ip ua : string) (now : datetime) (v : Visitor) : Prop :=
  ip_address v = ip /\ user_agent v = ua
  /\ exists t, last_update v = Some t /\ now - timedelta_minutes 5 <= t.

(** The number of tracking calls among [calls]. *)
Fixpoint visits (calls : list call) : Z :=
  match calls with
  | [] => 0
  | c :: calls' =>
      match call_mw c with
      | VisitorTracking => 1 + visits calls'
      | _ => visits calls'
      end
  end.

(** The calls that follow a tracked request made at [last] with the pair
    [(sk, ip)]: every tracking call is a tracked request with that pair,
    less than one hour after the one before it; every clean-up call comes
    while the last request is still inside the retention window. *)
Fixpoint same_session (env : Env) (sk ip : string) (last : datetime)
    (calls : list call) : Prop :=
  match calls with
  | [] => True
  | c :: calls' =>
      match call_mw c with
      | VisitorTracking =>
          tracked env (call_request c) = true
          /\ session_session_key (call_request c) = sk
          /\ ip_of (call_request c) = ip
          /\ call_clock c - timedelta_hours 1 < last
          /\ same_session env sk ip (call_clock c) calls'
      | VisitorCleanUp =>
          call_clock c - timedelta_hours (cleanup_timeout env) < last
          /\ same_session env sk ip last calls'
      | BannedIP => same_session env sk ip last calls'
      end
  end.

(** The table holds one record for the pair, with [n] page views, last
    updated at [last]. *)
Definition one_record (sk ip : string) (n : Z) (last : datetime) (db : Store) : Prop :=
  wf db
  /\ exists v, filter (by_session_and_ip sk ip) (rows db) = [v]
               /\ page_views v = n /\ last_update v = Some last.

(** What every row the middleware has written looks like: it has a key, a
    last update, a session start and at least one page view. *)
Definition row_written (v : Visitor) : Prop :=
  (exists k, pk v = Some k)
  /\ (exists t, last_update v = Some t)
  /\ (exists t, session_start v = Some t)
  /\ 1 <= page_views v.

(** [c in s] for a character *)
Fixpoint occurs (c : ascii) (s : string) : bool :=
  match s with
  | EmptyString => false
  | String d s' => Ascii.eqb c d || occurs c s'
  end.

(** [len(s)] *)
Definition len (s : string) : Z := Z.of_nat (String.length s).

(** ** Sample data *)

Module Sample.

Definition env : Env :=
  {| untracked_user_agents := ["Googlebot"; "Slurp"];
     untracked_prefixes := ["/static/"];
     MEDIA_URL := "/media/";
     ADMIN_MEDIA_PREFIX := "/admin-media/";
     cleanup_timeout := 24;
     banned_ips := ["6.6.6.6"];
     GOOGLE_ANALYTICS_ID := "UA-0000000-1" |}.

(** A page request without a referer header. *)
Definition page (sk ip ua path : string) : HttpRequest :=
  {| is_ajax := false;
     session_session_key := sk;
     META := [("REMOTE_ADDR", ip); ("HTTP_USER_AGENT", ua)];
     path := path;
     request_user := AnonymousUser |}.

Definition t0 : datetime := 1300000000 * 1000000.

Definition minutes (m : Z) : datetime := t0 + timedelta_minutes m.

(** One visitor, last seen at [t0]. *)
Definition seen : Visitor :=
  {| pk := Some 1; session_key := "s1"; ip_address := "1.2.3.4";
     user := None; user_agent := "UA-X"; referrer := "unknown";
     url := "/"; page_views := 3;
     session_start := Some t0; last_update := Some t0 |}.

Definition one_visitor : Store := {| rows := [seen]; next_pk := 2 |}.

(** The same device with a new session key. *)
Definition rotated : HttpRequest := page "s2" "1.2.3.4" "UA-X" "/about/".

(** The visitor of [seen] comes back under its own session key, from a
    page that links here. *)
Definition returning : HttpRequest :=
  {| is_ajax := false;
     session_session_key := "s1";
     META := [("REMOTE_ADDR", "1.2.3.4"); ("HTTP_USER_AGENT", "UA-X");
              ("HTTP_REFERER", "http://example.org/links")];
     path := "/news/";
     request_user := User 7 |}.

(** Four requests from one address; the third changes the user agent kept
    with the first session. *)
Definition first_session : call :=
  mkCall VisitorTracking (page "A" "10.0.0.1" "UA-X" "/") (minutes 0).
Definition second_session : call :=
  mkCall VisitorTracking (page "B" "10.0.0.1" "UA-Y" "/") (minutes 1).
Definition first_session_again : call :=
  mkCall VisitorTracking (page "A" "10.0.0.1" "UA-Y" "/") (minutes 2).
Definition third_session : HttpRequest := page "C" "10.0.0.1" "UA-Y" "/".

Definition two_candidates : Store :=
  run env [first_session; second_session; first_session_again] empty_store.

(** Three requests of one browser family behind one address: a second
    session starts six minutes after the first, then the first one comes
    back; a third session follows. *)
Definition shared_first : call :=
  mkCall VisitorTracking (page "A" "10.0.0.1" "UA-X" "/") (minutes 0).
Definition shared_second : call :=
  mkCall VisitorTracking (page "B" "10.0.0.1" "UA-X" "/") (minutes 6).
Definition shared_first_again : call :=
  mkCall VisitorTracking (page "A" "10.0.0.1" "UA-X" "/news/") (minutes 7).
Definition shared_third : HttpRequest := page "C" "10.0.0.1" "UA-X" "/".

Definition two_recent : Store :=
  run env [shared_first; shared_second; shared_first_again] empty_store.

End Sample.

(** * Properties *)

(** ** Strings *)

Module StrFacts.
Import Str.

Lemma startswith_app (p r : string) : startswith (p ++ r) p = true.
Proof.
  induction p as [|c p IH]; simpl.
  - reflexivity.
  - now rewrite Ascii.eqb_refl, IH.
Qed.

Lemma startswith_split (s p : string) :
  startswith s p = true -> exists r, s = (p ++ r)%string.
Proof.
  revert s; induction p as [|c p IH]; intros s H; simpl in H.
  - now exists s.
  - destruct s as [|d s]; [discriminate|].
    apply andb_true_iff in H as [Hc Hp].
    apply Ascii.eqb_eq in Hc; subst d.
    destruct (IH _ Hp) as [r ->]. now exists r.
Qed.

(** [startswith] is the prefix relation. *)
Lemma startswith_iff (s p : string) :
  startswith s p = true <-> exists r, s = (p ++ r)%string.
Proof.
  split; [apply startswith_split|].
  intros [r ->]; apply startswith_app.
Qed.

Lemma drop_app (p r : string) : drop (String.length p) (p ++ r) = r.
Proof. induction p; simpl; auto. Qed.

Lemma find_from_range (s sub : string) (i : Z) :
  find_from s sub i = -1 \/ i <= find_from s sub i.
Proof.
  revert i; induction s as [|c s IH]; intros i; simpl.
  - destruct (startswith "" sub); [right; lia | now left].
  - destruct (startswith (String c s) sub); [right; lia|].
    destruct (IH (i + 1)) as [E|E]; [now left | right; lia].
Qed.

Lemma find_from_hit (s sub : string) (i : Z) :
  0 <= i -> find_from s sub i <> -1 ->
  exists a b, s = (a ++ sub ++ b)%string.
Proof.
  revert i; induction s as [|c s IH]; intros i Hi H; simpl in H.
  - destruct (startswith "" sub) eqn:E; [|congruence].
    apply startswith_split in E as [r ->]. now exists ""%string, r.
  - destruct (startswith (String c s) sub) eqn:E.
    + apply startswith_split in E as [r ->]. now exists ""%string, r.
    + destruct (IH (i + 1)) as (a & b & ->); [lia | exact H |].
      now exists (String c a), b.
Qed.

Lemma find_from_occurs (a sub b : string) (i : Z) :
  0 <= i -> find_from (a ++ sub ++ b) sub i <> -1.
Proof.
  revert i; induction a as [|c a IH]; intros i Hi.
  - simpl (""%string ++ _)%string.
    destruct (sub ++ b)%string eqn:E; simpl; rewrite <- E;
      rewrite startswith_app; lia.
  - simpl. destruct (startswith _ sub); [lia|].
    apply IH; lia.
Qed.

(** [find] answers [-1] exactly when [sub] does not occur in [s]. *)
Lemma find_iff (s sub : string) :
  find s sub <> -1 <-> exists a b, s = (a ++ sub ++ b)%string.
Proof.
  unfold find; split.
  - apply find_from_hit; lia.
  - intros (a & b & ->). apply find_from_occurs; lia.
Qed.

Lemma mem_iff (x : string) (xs : list string) :
  mem x xs = true <-> In x xs.
Proof.
  unfold mem. rewrite existsb_exists. split.
  - intros (y & Hy & E). apply String.eqb_eq in E. now subst.
  - intros H. exists x. split; [exact H | apply String.eqb_refl].
Qed.

Lemma dict_get_absent (d : list (string * string)) (key default : string) :
  ~ In key (map fst d) -> dict_get d key default = default.
Proof.
  induction d as [|[k v] d IH]; simpl; intros H.
  - reflexivity.
  - destruct (String.eqb k key) eqn:E.
    + apply String.eqb_eq in E. tauto.
    + apply IH. tauto.
Qed.

End StrFacts.

(** ** The table *)

Module StoreFacts.

Lemma wf_empty : wf empty_store.
Proof. split; simpl; constructor. Qed.

Lemma pk_is_true (k : Z) (v : Visitor) : pk_is k v = true <-> pk v = Some k.
Proof.
  unfold pk_is. destruct (pk v) as [j|].
  - rewrite Z.eqb_eq. split; congruence.
  - split; discriminate.
Qed.

Lemma get_one_Ok (sel : list Visitor) (v : Visitor) :
  get_one sel = Ok v <-> sel = [v].
Proof.
  destruct sel as [|a [|b sel]]; simpl; split; intros H;
    try discriminate; congruence.
Qed.

Lemma get_one_small (sel : list Visitor) :
  (List.length sel <= 1)%nat ->
  sel = [] \/ exists v, sel = [v].
Proof.
  destruct sel as [|a [|b sel]]; simpl; intros H.
  - now left.
  - right. now exists a.
  - lia.
Qed.

Lemma filter_singleton_holds (p : Visitor -> bool) (rs : list Visitor) (v : Visitor) :
  filter p rs = [v] -> In v rs /\ p v = true.
Proof.
  intros H. apply filter_In. rewrite H. now left.
Qed.

Lemma filter_comm (p q : Visitor -> bool) (rs : list Visitor) :
  filter p (filter q rs) = filter q (filter p rs).
Proof.
  induction rs as [|a rs IH]; simpl; [reflexivity|].
  destruct (q a) eqn:Q, (p a) eqn:P; simpl; rewrite ?Q, ?P, IH; reflexivity.
Qed.

Lemma filter_both (p q : Visitor -> bool) (rs : list Visitor) :
  filter p (filter q rs) = filter (fun v => p v && q v) rs.
Proof.
  induction rs as [|a rs IH]; simpl; [reflexivity|].
  destruct (q a) eqn:Q, (p a) eqn:P; simpl; rewrite ?P, IH; reflexivity.
Qed.

Lemma replace_row_pks (k : Z) (v : Visitor) (rs : list Visitor) :
  pk v = Some k -> map pk (replace_row k v rs) = map pk rs.
Proof.
  intros Hv. unfold replace_row. rewrite map_map. apply map_ext_in.
  intros r _. destruct (pk_is k r) eqn:E; [|reflexivity].
  apply pk_is_true in E. congruence.
Qed.

Lemma replace_row_absent (k : Z) (v : Visitor) (rs : list Visitor) :
  ~ In (Some k) (map pk rs) -> replace_row k v rs = rs.
Proof.
  induction rs as [|a rs IH]; simpl; intros H; [reflexivity|].
  destruct (pk_is k a) eqn:E.
  - apply pk_is_true in E. exfalso. apply H. left. exact E.
  - f_equal. apply IH. tauto.
Qed.

(** Overwriting the one selected row with a row the lookup also selects
    leaves the lookup with that one row. *)
Lemma filter_replace_row (p : Visitor -> bool) (k : Z) (v v' : Visitor)
    (rs : list Visitor) :
  NoDup (map pk rs) -> pk v = Some k ->
  filter p rs = [v] -> p v' = true ->
  filter p (replace_row k v' rs) = [v'].
Proof.
  intros ND Hk Hsel Hp'.
  induction rs as [|a rs IH]; simpl in *; [discriminate|].
  inversion ND as [|x xs Hnotin ND']; subst.
  destruct (pk_is k a) eqn:E.
  - apply pk_is_true in E.
    assert (Ha : a = v).
    { destruct (p a) eqn:Pa.
      - congruence.
      - exfalso. apply filter_singleton_holds in Hsel as [Hin _].
        apply Hnotin. rewrite E, <- Hk. now apply in_map. }
    subst a.
    assert (Pv : p v = true).
    { destruct (p v) eqn:Pv; [reflexivity|].
      apply filter_singleton_holds in Hsel as [_ Hpv]. congruence. }
    rewrite Pv in Hsel. rewrite Hp'.
    rewrite replace_row_absent by (rewrite <- E; exact Hnotin).
    f_equal. congruence.
  - destruct (p a) eqn:Pa.
    + exfalso. inversion Hsel; subst a.
      apply pk_is_true in Hk. congruence.
    + now apply IH.
Qed.

Lemma existsb_pk_is (k : Z) (rs : list Visitor) :
  existsb (pk_is k) rs = true <-> In (Some k) (map pk rs).
Proof.
  rewrite existsb_exists, in_map_iff. split.
  - intros (v & Hin & E). exists v. apply pk_is_true in E. auto.
  - intros (v & E & Hin). exists v. split; [exact Hin|].
    now apply pk_is_true.
Qed.

Lemma NoDup_snoc {A} (l : list A) (a : A) :
  NoDup l -> ~ In a l -> NoDup (l ++ [a]).
Proof.
  induction l as [|x l IH]; simpl; intros ND Hn.
  - constructor; [tauto | constructor].
  - inversion ND as [|y ys Hx ND']; subst. constructor.
    + rewrite in_app_iff. simpl. intros [H|[H|[]]]; [tauto|].
      apply Hn. now left.
    + apply IH; tauto.
Qed.

Lemma wf_save_row (v : Visitor) (db : Store) : wf db -> wf (save_row v db).
Proof.
  intros [ND All]. unfold save_row.
  destruct (pk v) as [k|] eqn:Hk.
  - destruct (existsb (pk_is k) (rows db)) eqn:Ex; split; simpl.
    + now rewrite replace_row_pks.
    + unfold replace_row. apply Forall_map.
      rewrite Forall_forall in *. intros r Hr.
      destruct (pk_is k r) eqn:E; [|now apply All].
      apply pk_is_true in E. destruct (All r Hr) as (j & Hj & Hlt).
      exists k. split; [exact Hk | congruence].
    + rewrite map_app. simpl. rewrite Hk.
      apply NoDup_snoc; [exact ND|].
      intros Hin. apply existsb_pk_is in Hin. congruence.
    + apply Forall_app. split.
      * eapply Forall_impl; [|exact All].
        intros r (j & Hj & Hlt). exists j. split; [exact Hj | lia].
      * constructor; [|constructor]. exists k. split; [exact Hk | lia].
  - split; simpl.
    + rewrite map_app. simpl.
      apply NoDup_snoc; [exact ND|].
      intros Hin. apply in_map_iff in Hin as (r & Hr & Hin).
      rewrite Forall_forall in All.
      destruct (All r Hin) as (j & Hj & Hlt). rewrite Hj in Hr.
      injection Hr as ->. lia.
    + apply Forall_app. split.
      * eapply Forall_impl; [|exact All].
        intros r (j & Hj & Hlt). exists j. split; [exact Hj | lia].
      * constructor; [|constructor].
        exists (next_pk db). split; [reflexivity | lia].
Qed.

Lemma NoDup_map_filter (p : Visitor -> bool) (rs : list Visitor) :
  NoDup (map pk rs) -> NoDup (map pk (filter p rs)).
Proof.
  induction rs as [|a rs IH]; simpl; intros ND; [constructor|].
  inversion ND as [|x xs Hnotin ND']; subst.
  destruct (p a); simpl; [constructor|]; auto.
  intros Hin. apply Hnotin.
  apply in_map_iff in Hin as (r & E & Hin).
  apply filter_In in Hin as [Hin _]. rewrite <- E. now apply in_map.
Qed.

Lemma wf_filter_delete (p : Visitor -> bool) (db : Store) :
  wf db -> wf (snd (filter_delete p db)).
Proof.
  intros [ND All]. split; simpl.
  - now apply NoDup_map_filter.
  - rewrite Forall_forall in *. intros r Hr.
    apply filter_In in Hr as [Hr _]. now apply All.
Qed.

Lemma save_row_stored (v : Visitor) (db : Store) :
  In (stored v db) (rows (save_row v db)).
Proof.
  unfold stored, save_row. destruct (pk v) as [k|] eqn:Hk.
  - destruct (existsb (pk_is k) (rows db)) eqn:Ex; simpl.
    + apply existsb_exists in Ex as (r & Hr & E).
      unfold replace_row. apply in_map_iff. exists r. now rewrite E.
    + apply in_or_app. right. now left.
  - simpl. apply in_or_app. right. now left.
Qed.

End StoreFacts.

(** ** Visitor tracking *)

Module TrackingFacts.
Import VisitorTrackingMiddleware StoreFacts.

Lemma by_session_and_ip_iff (sk ip : string) (v : Visitor) :
  by_session_and_ip sk ip v = true <-> exact_match sk ip v.
Proof.
  unfold by_session_and_ip, exact_match.
  now rewrite andb_true_iff, !String.eqb_eq.
Qed.

Lemma last_update_gte_iff (t : datetime) (v : Visitor) :
  last_update_gte t v = true <-> exists u, last_update v = Some u /\ t <= u.
Proof.
  unfold last_update_gte. destruct (last_update v) as [u|].
  - rewrite Z.leb_le. split.
    + intros H. now exists u.
    + intros (u' & E & H). congruence.
  - split; [discriminate | intros (u & E & _); discriminate].
Qed.

Lemma last_update_lte_iff (t : datetime) (v : Visitor) :
  last_update_lte t v = true <-> exists u, last_update v = Some u /\ u <= t.
Proof.
  unfold last_update_lte. destruct (last_update v) as [u|].
  - rewrite Z.leb_le. split.
    + intros H. now exists u.
    + intros (u' & E & H). congruence.
  - split; [discriminate | intros (u & E & _); discriminate].
Qed.

Lemma by_ip_agent_since_iff (ip ua : string) (now : datetime) (v : Visitor) :
  by_ip_agent_since ip ua (now - timedelta_minutes 5) v = true
  <-> recent_match ip ua now v.
Proof.
  unfold by_ip_agent_since, recent_match.
  rewrite !andb_true_iff, !String.eqb_eq, last_update_gte_iff. tauto.
Qed.

Lemma filter_none (p : Visitor -> bool) (rs : list Visitor) :
  (forall w, In w rs -> p w <> true) -> filter p rs = [].
Proof.
  induction rs as [|a rs IH]; simpl; intros H; [reflexivity|].
  destruct (p a) eqn:E.
  - exfalso. now apply (H a); [left|].
  - apply IH. intros w Hw. apply H. now right.
Qed.

Lemma filter_only (p : Visitor -> bool) (rs : list Visitor) (v : Visitor) :
  NoDup rs -> In v rs -> p v = true ->
  (forall w, In w rs -> p w = true -> w = v) ->
  filter p rs = [v].
Proof.
  induction rs as [|a rs IH]; simpl; intros ND Hin Hp Huniq; [contradiction|].
  inversion ND as [|x xs Hnotin ND']; subst.
  destruct (p a) eqn:E.
  - assert (a = v) by (apply Huniq; auto). subst a.
    f_equal. apply filter_none. intros w Hw Hpw.
    assert (w = v) by (apply Huniq; auto). subst w. contradiction.
  - destruct Hin as [->|Hin]; [congruence|].
    apply IH; auto.
Qed.

Lemma wf_NoDup_rows (db : Store) : wf db -> NoDup (rows db).
Proof. intros [ND _]. eapply NoDup_map_inv. exact ND. Qed.

(** The branches of [resolve]. *)

Section Resolve.

Variables (request : HttpRequest) (now : datetime) (db : Store).

Let sk := session_session_key request.
Let ip := ip_of request.
Let ua := agent_of request.
Let exact := filter (by_session_and_ip sk ip) (rows db).
Let recent :=
  filter (by_ip_agent_since ip ua (now - timedelta_minutes 5)) (rows db).

Lemma resolve_exact (v : Visitor) :
  exact = [v] -> resolve request now db = (Ok v, db).
Proof.
  unfold exact, sk, ip. intros H.
  unfold resolve, try_except, objects_get. now rewrite H.
Qed.

Lemma resolve_recent (v : Visitor) :
  exact = [] -> recent = [v] ->
  resolve request now db = (Ok (set_session_key v sk), db).
Proof.
  unfold exact, recent, sk, ip, ua. intros H1 H2.
  unfold resolve, try_except, bind, objects_get, ret.
  now rewrite H1, H2.
Qed.

Lemma resolve_new :
  exact = [] -> recent = [] ->
  resolve request now db = (Ok (Visitor_init sk ip), db).
Proof.
  unfold exact, recent, sk, ip, ua. intros H1 H2.
  unfold resolve, try_except, bind, objects_get, ret.
  now rewrite H1, H2.
Qed.

Lemma resolve_exact_many (a b : Visitor) (l : list Visitor) :
  exact = a :: b :: l ->
  resolve request now db = (Raise MultipleObjectsReturned, db).
Proof.
  unfold exact, sk, ip. intros H.
  unfold resolve, try_except, objects_get. now rewrite H.
Qed.

Lemma resolve_recent_many (a b : Visitor) (l : list Visitor) :
  exact = [] -> recent = a :: b :: l ->
  resolve request now db = (Raise MultipleObjectsReturned, db).
Proof.
  unfold exact, recent, sk, ip, ua. intros H1 H2.
  unfold resolve, try_except, bind, objects_get, ret.
  now rewrite H1, H2.
Qed.

(** [resolve] only reads. *)
Lemma resolve_reads : snd (resolve request now db) = db.
Proof.
  unfold resolve, try_except, bind, objects_get, ret. simpl.
  destruct (get_one _) as [v|[]]; simpl; try reflexivity.
  destruct (get_one _) as [w|[]]; simpl; reflexivity.
Qed.

End Resolve.

Lemma tracked_gates (env : Env) (request : HttpRequest) :
  tracked env request = true ->
  is_ajax request = false /\ untracked_agent env request = false
  /\ validURL env request = true.
Proof.
  unfold tracked. rewrite !andb_true_iff, !negb_true_iff. tauto.
Qed.

(** A tracked request resolves its record, writes the fields and saves. *)
Lemma process_request_tracked (env : Env) (request : HttpRequest)
    (now : datetime) (db : Store) :
  tracked env request = true ->
  process_request env request now db
  = (visitor <- resolve request now ;; save (touch request now visitor)) db.
Proof.
  intros H. apply tracked_gates in H as (H1 & H2 & H3).
  unfold process_request. now rewrite H1, H2, H3.
Qed.

Lemma process_request_resolved (env : Env) (request : HttpRequest)
    (now : datetime) (db db1 : Store) (visitor : Visitor) :
  tracked env request = true ->
  resolve request now db = (Ok visitor, db1) ->
  process_request env request now db
  = (Ok tt, save_row (touch request now visitor) db1).
Proof.
  intros Ht Hr. rewrite process_request_tracked by exact Ht.
  unfold bind, save. now rewrite Hr.
Qed.

Lemma process_request_raised (env : Env) (request : HttpRequest)
    (now : datetime) (db db1 : Store) (e : exn) :
  tracked env request = true ->
  resolve request now db = (Raise e, db1) ->
  process_request env request now db = (Raise e, db1).
Proof.
  intros Ht Hr. rewrite process_request_tracked by exact Ht.
  unfold bind. now rewrite Hr.
Qed.

(** A request that is not tracked leaves the table as it is. *)
Lemma process_request_untracked (env : Env) (request : HttpRequest)
    (now : datetime) (db : Store) :
  tracked env request = false ->
  process_request env request now db = (Ok tt, db).
Proof.
  unfold tracked, process_request. intros H.
  destruct (is_ajax request); [reflexivity|].
  destruct (untracked_agent env request); [reflexivity|].
  destruct (validURL env request); [discriminate | reflexivity].
Qed.

Lemma window_restarts_iff (now : datetime) (v : Visitor) :
  window_restarts now v = true
  <-> last_update v = None
      \/ exists t, last_update v = Some t /\ t <= now - timedelta_hours 1.
Proof.
  unfold window_restarts, timedelta_hours.
  destruct (last_update v) as [t|].
  - rewrite Z.leb_le. split.
    + intros H. right. exists t. split; [reflexivity | lia].
    + intros [H|(u & E & H)]; [discriminate|].
      injection E as <-. lia.
  - split; [now left | reflexivity].
Qed.

(** Saving over the row of [v] puts the new row in its place. *)
Lemma replace_row_split (k : Z) (v v' : Visitor) (rs : list Visitor) :
  NoDup (map pk rs) -> In v rs -> pk v = Some k ->
  exists l1 l2, rs = l1 ++ v :: l2 /\ replace_row k v' rs = l1 ++ v' :: l2.
Proof.
  intros ND Hin Hk. destruct (in_split _ _ Hin) as (l1 & l2 & ->).
  exists l1, l2. split; [reflexivity|].
  rewrite map_app in ND. simpl in ND. rewrite Hk in ND.
  pose proof (NoDup_remove_2 _ _ _ ND) as Hno.
  rewrite in_app_iff in Hno.
  unfold replace_row. rewrite map_app. simpl.
  fold (replace_row k v' l1). fold (replace_row k v' l2).
  rewrite !replace_row_absent by tauto.
  now rewrite (proj2 (pk_is_true k v) Hk).
Qed.

Lemma unique_pairs_save_over (v v' : Visitor) (k : Z) (db : Store) :
  wf db -> unique_pairs db -> In v (rows db) -> pk v = Some k ->
  pk v' = Some k ->
  (forall sk ip, by_session_and_ip sk ip v' = true ->
     by_session_and_ip sk ip v = true
     \/ filter (by_session_and_ip sk ip) (rows db) = []) ->
  unique_pairs (save_row v' db).
Proof.
  intros [ND _] Hu Hin Hk Hk' Hp sk ip.
  assert (Ex : existsb (pk_is k) (rows db) = true).
  { apply existsb_pk_is. rewrite <- Hk. now apply in_map. }
  unfold save_row. rewrite Hk', Ex. simpl.
  destruct (replace_row_split k v v' (rows db) ND Hin Hk) as (l1 & l2 & E & ->).
  specialize (Hu sk ip). specialize (Hp sk ip). rewrite E in Hu, Hp.
  rewrite filter_app in *. simpl in *.
  destruct (by_session_and_ip sk ip v') eqn:P'.
  - destruct (Hp eq_refl) as [P|P].
    + rewrite P in Hu. rewrite length_app in *. exact Hu.
    + destruct (by_session_and_ip sk ip v).
      * apply app_eq_nil in P as [_ P]. discriminate.
      * apply app_eq_nil in P as [-> ->]. simpl. lia.
  - destruct (by_session_and_ip sk ip v);
      rewrite ?length_app in *; simpl in *; lia.
Qed.

(** Tracking keeps at most one row under every pair. *)
Lemma unique_pairs_process_request (env : Env) (request : HttpRequest)
    (now : datetime) (db : Store) :
  wf db -> unique_pairs db ->
  unique_pairs (snd (process_request env request now db)).
Proof.
  intros Hwf Hu. destruct (tracked env request) eqn:Htr;
    [|now rewrite process_request_untracked].
  set (sk := session_session_key request). set (ip := ip_of request).
  set (ua := agent_of request).
  pose proof (Hu sk ip) as Hex.
  destruct (get_one_small _ Hex) as [E0|[e E0]].
  - destruct (filter (by_ip_agent_since ip ua (now - timedelta_minutes 5))
                     (rows db)) as [|r [|r2 l]] eqn:E1.
    + rewrite (process_request_resolved _ _ _ _ _ _ Htr
                 (resolve_new request now db E0 E1)). simpl.
      intros a b. unfold save_row. simpl. rewrite filter_app, length_app.
      simpl. fold sk. fold ip.
      destruct (by_session_and_ip a b _) eqn:P; simpl.
      * apply by_session_and_ip_iff in P as [<- <-]. simpl.
        fold sk. fold ip. rewrite E0. simpl. lia.
      * specialize (Hu a b). lia.
    + rewrite (process_request_resolved _ _ _ _ _ _ Htr
                 (resolve_recent request now db r E0 E1)). simpl.
      destruct (filter_singleton_holds _ _ _ E1) as [Hin Hr].
      destruct Hwf as [ND All]. rewrite Forall_forall in All.
      destruct (All r Hin) as (k & Hk & _).
      apply unique_pairs_save_over with (v := r) (k := k); auto.
      * split; [exact ND | now apply Forall_forall].
      * intros a b P. right.
        apply by_session_and_ip_iff in P as [<- <-]. simpl.
        apply andb_true_iff in Hr as [Hr _].
        apply andb_true_iff in Hr as [Hr _].
        apply String.eqb_eq in Hr. rewrite Hr. exact E0.
    + now rewrite (process_request_raised _ _ _ _ _ _ Htr
                     (resolve_recent_many request now db r r2 l E0 E1)).
  - rewrite (process_request_resolved _ _ _ _ _ _ Htr
               (resolve_exact request now db e E0)). simpl.
    destruct (filter_singleton_holds _ _ _ E0) as [Hin _].
    destruct Hwf as [ND All]. rewrite Forall_forall in All.
    destruct (All e Hin) as (k & Hk & _).
    apply unique_pairs_save_over with (v := e) (k := k); auto.
    split; [exact ND | now apply Forall_forall].
Qed.

(** Every middleware keeps the keys primary. *)
Lemma wf_process_request (env : Env) (request : HttpRequest)
    (now : datetime) (db : Store) :
  wf db -> wf (snd (process_request env request now db)).
Proof.
  intros Hwf. destruct (tracked env request) eqn:Htr.
  - rewrite process_request_tracked by exact Htr. unfold bind.
    pose proof (resolve_reads request now db) as Hr.
    destruct (resolve request now db) as [[v|e] db1]; simpl in Hr; subst db1.
    + simpl. now apply wf_save_row.
    + exact Hwf.
  - now rewrite process_request_untracked.
Qed.

Lemma wf_step (env : Env) (c : call) (db : Store) :
  wf db -> wf (step env db c).
Proof.
  intros Hwf. unfold step. destruct (call_mw c); cbn [process_request_of].
  - unfold BannedIPMiddleware.process_request.
    destruct (Str.mem _ _); exact Hwf.
  - now apply wf_filter_delete.
  - now apply wf_process_request.
Qed.

Lemma wf_run (env : Env) (calls : list call) (db : Store) :
  wf db -> wf (run env calls db).
Proof.
  revert db. induction calls as [|c calls IH]; intros db Hwf; simpl.
  - exact Hwf.
  - apply IH. now apply wf_step.
Qed.

Lemma unique_pairs_filter_delete (p : Visitor -> bool) (db : Store) :
  unique_pairs db -> unique_pairs (snd (filter_delete p db)).
Proof.
  intros Hu sk ip. simpl. rewrite filter_comm.
  specialize (Hu sk ip).
  destruct (get_one_small _ Hu) as [->|[v ->]]; simpl; [lia|].
  destruct (negb (p v)); simpl; lia.
Qed.

(** From the empty table, whatever is called, keys stay primary and pairs
    stay unique: the lookup by (session key, address) selects at most one
    row. *)
Lemma reachable_tables (env : Env) (calls : list call) :
  forall db, wf db -> unique_pairs db ->
             wf (run env calls db) /\ unique_pairs (run env calls db).
Proof.
  induction calls as [|c calls IH]; intros db Hwf Hu; [now split|].
  simpl. apply IH; [now apply wf_step|].
  unfold step. destruct (call_mw c); cbn [process_request_of].
  - unfold BannedIPMiddleware.process_request.
    destruct (Str.mem _ _); exact Hu.
  - now apply unique_pairs_filter_delete.
  - now apply unique_pairs_process_request.
Qed.

End TrackingFacts.

(** * The claims *)

Import VisitorTrackingMiddleware StrFacts StoreFacts TrackingFacts.

(** ** Identity resolution *)

(** With one candidate.  A tracked request with no record under its
    (session key, address) adopts the one record with its address and user
    agent that was updated at or after five minutes before now, and the
    adopted record gets the request's session key: it is saved over its own row and no row is
    added.  When no record has the address, the user agent and such an
    update time, a fresh record with the request's session key and address
    is added to the table. *)
Theorem session_migration_or_new
    (env : Env) (request : HttpRequest) (now : datetime) (db : Store) :
  let sk := session_session_key request in
  let ip := ip_of request in
  let ua := agent_of request in
  let db' := snd (process_request env request now db) in
  wf db ->
  tracked env request = true ->
  (forall w, In w (rows db) -> ~ exact_match sk ip w) ->
  (forall v, In v (rows db) -> recent_match ip ua now v ->
     (forall w, In w (rows db) -> recent_match ip ua now w -> w = v) ->
     let adopted := set_session_key v sk in
     resolve request now db = (Ok adopted, db)
     /\ session_key adopted = sk
     /\ pk adopted = pk v
     /\ In (touch request now adopted) (rows db')
     /\ List.length (rows db') = List.length (rows db))
  /\ ((forall w, In w (rows db) -> ~ recent_match ip ua now w) ->
      let fresh := Visitor_init sk ip in
      resolve request now db = (Ok fresh, db)
      /\ session_key fresh = sk
      /\ ip_address fresh = ip
      /\ rows db' = rows db ++ [set_pk (touch request now fresh) (next_pk db)]).
Proof.
  intros sk ip ua db' Hwf Htr Hexact.
  assert (E0 : filter (by_session_and_ip sk ip) (rows db) = []).
  { apply filter_none. intros w Hw Hp.
    apply by_session_and_ip_iff in Hp. exact (Hexact w Hw Hp). }
  split.
  - intros v Hin Hrec Huniq adopted.
    assert (E1 : filter (by_ip_agent_since ip ua (now - timedelta_minutes 5))
                        (rows db) = [v]).
    { apply filter_only; auto using wf_NoDup_rows.
      - now apply by_ip_agent_since_iff.
      - intros w Hw Hp. apply Huniq; [exact Hw|].
        now apply by_ip_agent_since_iff. }
    pose proof (resolve_recent request now db v E0 E1) as Hres.
    fold sk in Hres. fold adopted in Hres.
    assert (Hpr := process_request_resolved env request now db db adopted Htr Hres).
    destruct Hwf as [ND All]. rewrite Forall_forall in All.
    destruct (All v Hin) as (k & Hk & _).
    assert (Ex : existsb (pk_is k) (rows db) = true).
    { apply existsb_pk_is. rewrite <- Hk. now apply in_map. }
    repeat split; try reflexivity; try exact Hres.
    + unfold db'. rewrite Hpr. simpl.
      pose proof (save_row_stored (touch request now adopted) db) as Hs.
      unfold stored in Hs. simpl in Hs. now rewrite Hk in Hs.
    + unfold db'. rewrite Hpr. simpl. unfold save_row. simpl.
      rewrite Hk, Ex. simpl. unfold replace_row. apply length_map.
  - intros Hnone fresh.
    assert (E1 : filter (by_ip_agent_since ip ua (now - timedelta_minutes 5))
                        (rows db) = []).
    { apply filter_none. intros w Hw Hp.
      apply by_ip_agent_since_iff in Hp. exact (Hnone w Hw Hp). }
    pose proof (resolve_new request now db E0 E1) as Hres.
    fold sk in Hres. fold ip in Hres. fold fresh in Hres.
    assert (Hpr := process_request_resolved env request now db db fresh Htr Hres).
    repeat split; try reflexivity; try exact Hres.
    unfold db'. now rewrite Hpr.
Qed.

(** The device seen four minutes ago under another session key keeps its
    record, now under the new key; seen six minutes ago, it gets a second
    record. *)
Lemma session_migration_or_new_witness :
  let db4 := snd (process_request Sample.env Sample.rotated (Sample.minutes 4)
                                  Sample.one_visitor) in
  let db6 := snd (process_request Sample.env Sample.rotated (Sample.minutes 6)
                                  Sample.one_visitor) in
  (resolve Sample.rotated (Sample.minutes 4) Sample.one_visitor
   = (Ok (set_session_key Sample.seen "s2"), Sample.one_visitor)
   /\ In (touch Sample.rotated (Sample.minutes 4)
                (set_session_key Sample.seen "s2")) (rows db4)
   /\ List.length (rows db4) = 1%nat)
  /\ rows db6
     = [Sample.seen;
        set_pk (touch Sample.rotated (Sample.minutes 6)
                      (Visitor_init "s2" "1.2.3.4")) 2].
Proof.
  intros db4 db6.
  assert (Hwf : wf Sample.one_visitor).
  { split; simpl.
    - constructor; [simpl; tauto | constructor].
    - constructor; [|constructor]. exists 1. split; [reflexivity | lia]. }
  assert (Hex : forall w, In w (rows Sample.one_visitor) ->
                          ~ exact_match "s2" "1.2.3.4" w).
  { intros w [<-|[]] [H _]. discriminate. }
  split.
  - destruct (session_migration_or_new Sample.env Sample.rotated
                (Sample.minutes 4) Sample.one_visitor Hwf eq_refl Hex)
      as [Hadopt _].
    destruct (Hadopt Sample.seen) as (Hres & _ & _ & Hin & Hlen).
    + now left.
    + repeat split. exists Sample.t0. split; [reflexivity|].
      unfold Sample.minutes, timedelta_minutes. lia.
    + intros w [<-|[]] _. reflexivity.
    + split; [exact Hres | split; [exact Hin | exact Hlen]].
  - destruct (session_migration_or_new Sample.env Sample.rotated
                (Sample.minutes 6) Sample.one_visitor Hwf eq_refl Hex)
      as [_ Hnew].
    destruct Hnew as (_ & _ & _ & Hrows).
    + intros w [<-|[]] (_ & _ & t & E & Ht).
      injection E as <-.
      unfold Sample.minutes, timedelta_minutes in Ht. lia.
    + exact Hrows.
Defined.

(** C1.  Adoption can fail: a second session of the same browser starts
    six minutes after the first and the first one comes back a minute
    later, so the table holds two records with the address "10.0.0.1" and
    the user agent "UA-X", both updated in the last five minutes.  A
    request with a third session key has no record under its (session key,
    address) and has such records to adopt, yet resolution raises
    [MultipleObjectsReturned]: no record is adopted, none is created and
    the table stays as it was. *)
Lemma migration_raises_on_two_candidates :
  let db := Sample.two_recent in
  let now := Sample.minutes 8 in
  let request := Sample.shared_third in
  tracked Sample.env request = true
  /\ (forall w, In w (rows db) ->
        ~ exact_match (session_session_key request) (ip_of request) w)
  /\ (exists v, In v (rows db)
                /\ recent_match (ip_of request) (agent_of request) now v)
  /\ resolve request now db = (Raise MultipleObjectsReturned, db)
  /\ process_request Sample.env request now db
     = (Raise MultipleObjectsReturned, db)
  /\ (forall w, In w (rows db) -> session_key w <> session_session_key request).
Proof.
  cbv zeta. split; [reflexivity|]. split; [|split; [|split; [|split]]].
  - intros w Hw [Hsk _]. vm_compute in Hw.
    destruct Hw as [<-|[<-|[]]]; discriminate Hsk.
  - eexists. split; [left; reflexivity|].
    split; [reflexivity|]. split; [reflexivity|].
    eexists. split; [reflexivity|]. vm_compute. discriminate.
  - vm_compute. reflexivity.
  - vm_compute. reflexivity.
  - intros w Hw Hsk. vm_compute in Hw.
    destruct Hw as [<-|[<-|[]]]; discriminate Hsk.
Qed.

(** C4.  Resolution can fail: after three tracked requests the table holds
    two records with the address "10.0.0.1", the user agent "UA-Y" and an
    update in the last five minutes; resolving a request with a third
    session key then raises [MultipleObjectsReturned], it returns neither
    the more recently updated of the two nor a fresh record, and the
    exception leaves [process_request]. *)
Lemma resolution_raises_on_two_candidates :
  let db := Sample.two_candidates in
  let now := Sample.minutes 3 in
  List.length (filter (by_ip_agent_since "10.0.0.1" "UA-Y"
                         (now - timedelta_minutes 5)) (rows db)) = 2%nat
  /\ resolve Sample.third_session now db = (Raise MultipleObjectsReturned, db)
  /\ ~ (exists v, fst (resolve Sample.third_session now db) = Ok v)
  /\ process_request Sample.env Sample.third_session now db
     = (Raise MultipleObjectsReturned, db).
Proof.
  vm_compute. repeat split; try reflexivity.
  intros [v H]. discriminate.
Qed.

(** When at most one record has the request's (session key, address) and,
    if none has, at most one record has its address and user agent with an
    update in the last five minutes, resolution returns a record and raises
    nothing: the record with the pair; else the one recent record, under
    the request's session key; else, no match being an ordinary branch, a
    fresh record.  The table is only read. *)
Theorem resolution_returns_when_unambiguous
    (request : HttpRequest) (now : datetime) (db : Store) :
  let sk := session_session_key request in
  let ip := ip_of request in
  let ua := agent_of request in
  let exact := filter (by_session_and_ip sk ip) (rows db) in
  let recent :=
    filter (by_ip_agent_since ip ua (now - timedelta_minutes 5)) (rows db) in
  (List.length exact <= 1)%nat ->
  (exact = [] -> (List.length recent <= 1)%nat) ->
  exists v,
    resolve request now db = (Ok v, db)
    /\ (forall e, exact = [e] -> v = e)
    /\ (forall r, exact = [] -> recent = [r] -> v = set_session_key r sk)
    /\ (exact = [] -> recent = [] -> v = Visitor_init sk ip).
Proof.
  intros sk ip ua exact recent H1 H2.
  destruct (get_one_small exact H1) as [E|[e E]].
  - destruct (get_one_small recent (H2 E)) as [R|[r R]].
    + exists (Visitor_init sk ip). split; [now apply resolve_new|].
      repeat split; intros; congruence.
    + exists (set_session_key r sk). split; [now apply resolve_recent|].
      repeat split; intros; congruence.
  - exists e. split; [now apply resolve_exact|].
    repeat split; intros; congruence.
Qed.

Lemma resolution_returns_when_unambiguous_witness :
  exists v,
    resolve Sample.rotated (Sample.minutes 4) Sample.one_visitor
    = (Ok v, Sample.one_visitor)
    /\ v = set_session_key Sample.seen "s2".
Proof.
  destruct (resolution_returns_when_unambiguous Sample.rotated
              (Sample.minutes 4) Sample.one_visitor)
    as (v & Hres & _ & Hrecent & _).
  - vm_compute. lia.
  - intros _. vm_compute. lia.
  - exists v. split; [exact Hres|].
    apply Hrecent; reflexivity.
Defined.

(** ** The session window *)

(** C3.  On a tracked request whose record resolution returned, the saved
    record has its page views at 1 (set to 0, then incremented), its
    referrer taken from the request's referer header and its session start
    at now when the record is brand new, or has no last update, or was last
    updated at or before one hour before now; in every other case its
    referrer and session start are those of the resolved record and its
    page views are one more. *)
Theorem session_window_rule
    (env : Env) (request : HttpRequest) (now : datetime)
    (db db1 : Store) (visitor : Visitor) :
  let saved := touch request now visitor in
  let restarts :=
    visitor = Visitor_init (session_session_key request) (ip_of request)
    \/ last_update visitor = None
    \/ exists t, last_update visitor = Some t /\ t <= now - timedelta_hours 1 in
  tracked env request = true ->
  resolve request now db = (Ok visitor, db1) ->
  process_request env request now db = (Ok tt, save_row saved db1)
  /\ In (stored saved db1) (rows (save_row saved db1))
  /\ (restarts ->
      page_views saved = 0 + 1
      /\ referrer saved = dict_get (META request) "HTTP_REFERER" "unknown"
      /\ session_start saved = Some now)
  /\ (~ restarts ->
      page_views saved = page_views visitor + 1
      /\ referrer saved = referrer visitor
      /\ session_start saved = session_start visitor).
Proof.
  intros saved restarts Htr Hres.
  split; [now apply process_request_resolved|].
  split; [apply save_row_stored|].
  assert (Hiff : restarts <-> window_restarts now visitor = true).
  { unfold restarts. rewrite window_restarts_iff. split.
    - intros [->|H]; [now left | exact H].
    - intros H. now right. }
  split.
  - intros H. apply Hiff in H. unfold saved, touch. simpl.
    rewrite H. repeat split.
  - intros H. assert (E : window_restarts now visitor = false).
    { destruct (window_restarts now visitor); [|reflexivity].
      exfalso. apply H, Hiff. reflexivity. }
    unfold saved, touch. simpl. rewrite E. repeat split.
Qed.

(** Sixty-one minutes after its last update the record's window restarts
    and the referrer is the one of this request. *)
Lemma session_window_rule_witness :
  let saved := touch Sample.returning (Sample.minutes 61) Sample.seen in
  process_request Sample.env Sample.returning (Sample.minutes 61)
                  Sample.one_visitor
  = (Ok tt, save_row saved Sample.one_visitor)
  /\ page_views saved = 1
  /\ referrer saved = "http://example.org/links"
  /\ session_start saved = Some (Sample.minutes 61).
Proof.
  intros saved.
  destruct (session_window_rule Sample.env Sample.returning
              (Sample.minutes 61) Sample.one_visitor Sample.one_visitor
              Sample.seen eq_refl eq_refl)
    as (Hpr & _ & Hreset & _).
  split; [exact Hpr|].
  apply Hreset. right. right. exists Sample.t0.
  split; [reflexivity|].
  unfold Sample.minutes, timedelta_minutes, timedelta_hours. lia.
Defined.

(** C10.  When the window restarts on a tracked request that carries no
    referer header, the saved record's referrer is the string "unknown". *)
Theorem referrer_defaults_to_unknown
    (env : Env) (request : HttpRequest) (now : datetime)
    (db db1 : Store) (visitor : Visitor) :
  let saved := touch request now visitor in
  tracked env request = true ->
  resolve request now db = (Ok visitor, db1) ->
  window_restarts now visitor = true ->
  ~ In "HTTP_REFERER" (map fst (META request)) ->
  process_request env request now db = (Ok tt, save_row saved db1)
  /\ referrer saved = "unknown"
  /\ referrer (stored saved db1) = "unknown"
  /\ In (stored saved db1) (rows (save_row saved db1)).
Proof.
  intros saved Htr Hres Hwin Hno.
  assert (E : referrer saved = "unknown").
  { unfold saved, touch. simpl. rewrite Hwin.
    now apply dict_get_absent. }
  split; [now apply process_request_resolved|].
  split; [exact E|].
  split; [|apply save_row_stored].
  unfold stored. destruct (pk saved); [exact E|]. exact E.
Qed.

(** A first visit without a referer header. *)
Lemma referrer_defaults_to_unknown_witness :
  let request := Sample.page "A" "10.0.0.1" "UA-X" "/" in
  let saved := touch request Sample.t0 (Visitor_init "A" "10.0.0.1") in
  process_request Sample.env request Sample.t0 empty_store
  = (Ok tt, save_row saved empty_store)
  /\ referrer saved = "unknown"
  /\ referrer (stored saved empty_store) = "unknown"
  /\ In (stored saved empty_store) (rows (save_row saved empty_store)).
Proof.
  intros request saved.
  apply (referrer_defaults_to_unknown Sample.env request Sample.t0
           empty_store empty_store (Visitor_init "A" "10.0.0.1")).
  - reflexivity.
  - reflexivity.
  - reflexivity.
  - simpl. intros [H|[H|[]]]; discriminate.
Defined.

(** ** One record per (session key, address) *)

Lemma one_record_tracking (env : Env) (sk ip : string) (n : Z)
    (last now : datetime) (request : HttpRequest) (db : Store) :
  one_record sk ip n last db ->
  tracked env request = true ->
  session_session_key request = sk -> ip_of request = ip ->
  now - timedelta_hours 1 < last ->
  one_record sk ip (n + 1) now (snd (process_request env request now db)).
Proof.
  intros (Hwf & v & Hsel & Hn & Hlast) Htr Hsk Hip Hnow.
  assert (Hres : resolve request now db = (Ok v, db)).
  { apply resolve_exact. now rewrite Hsk, Hip. }
  rewrite (process_request_resolved env request now db db v Htr Hres). simpl.
  split; [now apply wf_save_row|].
  exists (touch request now v).
  assert (Hw : window_restarts now v = false).
  { unfold window_restarts, timedelta_hours in *. rewrite Hlast.
    apply Z.leb_gt. lia. }
  destruct (filter_singleton_holds _ _ _ Hsel) as [Hin Hp].
  destruct Hwf as [ND All]. rewrite Forall_forall in All.
  destruct (All v Hin) as (k & Hk & _).
  assert (Ex : existsb (pk_is k) (rows db) = true).
  { apply existsb_pk_is. rewrite <- Hk. now apply in_map. }
  repeat split.
  - unfold save_row. simpl. rewrite Hk, Ex. simpl.
    apply filter_replace_row with (v := v); auto.
  - simpl. rewrite Hw. lia.
Qed.

Lemma one_record_cleanup (env : Env) (sk ip : string) (n : Z)
    (last now : datetime) (request : HttpRequest) (db : Store) :
  one_record sk ip n last db ->
  now - timedelta_hours (cleanup_timeout env) < last ->
  one_record sk ip n last
    (snd (VisitorCleanUpMiddleware.process_request env request now db)).
Proof.
  intros (Hwf & v & Hsel & Hn & Hlast) Hnow.
  unfold VisitorCleanUpMiddleware.process_request.
  split; [now apply wf_filter_delete|].
  exists v. repeat split; auto. simpl.
  rewrite filter_comm, Hsel. simpl.
  unfold last_update_lte. rewrite Hlast.
  replace (last <=? _) with false; [reflexivity|].
  symmetry. apply Z.leb_gt. lia.
Qed.

Lemma banned_ip_reads (env : Env) (request : HttpRequest) (now : datetime)
    (db : Store) :
  snd (BannedIPMiddleware.process_request env request now db) = db.
Proof.
  unfold BannedIPMiddleware.process_request.
  destruct (Str.mem _ _); reflexivity.
Qed.

Lemma run_cons (env : Env) (c : call) (calls : list call) (db : Store) :
  run env (c :: calls) db = run env calls (step env db c).
Proof. reflexivity. Qed.

Lemma one_record_run (env : Env) (sk ip : string) (calls : list call) :
  forall (n : Z) (last : datetime) (db : Store),
    one_record sk ip n last db ->
    same_session env sk ip last calls ->
    exists last', one_record sk ip (n + visits calls) last' (run env calls db).
Proof.
  induction calls as [|c calls IH]; intros n last db Hone Hsame.
  - exists last. simpl. now rewrite Z.add_0_r.
  - rewrite run_cons. unfold step. simpl in Hsame.
    cbn [visits]. destruct (call_mw c); cbn [process_request_of].
    + rewrite banned_ip_reads. now apply IH with (last := last).
    + destruct Hsame as [Hnow Hsame].
      apply IH with (last := last); [|exact Hsame].
      now apply one_record_cleanup.
    + destruct Hsame as (Htr & Hsk & Hip & Hnow & Hsame).
      replace (n + (1 + visits calls)) with ((n + 1) + visits calls) by lia.
      apply IH with (last := call_clock c); [|exact Hsame].
      now apply one_record_tracking with (last := last).
Qed.

Lemma one_record_first (env : Env) (request : HttpRequest) (now : datetime)
    (db : Store) :
  let sk := session_session_key request in
  let ip := ip_of request in
  wf db ->
  tracked env request = true ->
  (forall w, In w (rows db) -> ~ exact_match sk ip w) ->
  (forall w, In w (rows db) -> ~ recent_match ip (agent_of request) now w) ->
  one_record sk ip 1 now (snd (process_request env request now db)).
Proof.
  intros sk ip Hwf Htr Hex Hrec.
  assert (E0 : filter (by_session_and_ip sk ip) (rows db) = []).
  { apply filter_none. intros w Hw Hp.
    apply by_session_and_ip_iff in Hp. exact (Hex w Hw Hp). }
  assert (E1 : filter (by_ip_agent_since ip (agent_of request)
                         (now - timedelta_minutes 5)) (rows db) = []).
  { apply filter_none. intros w Hw Hp.
    apply by_ip_agent_since_iff in Hp. exact (Hrec w Hw Hp). }
  pose proof (resolve_new request now db E0 E1) as Hres.
  rewrite (process_request_resolved _ _ _ _ _ _ Htr Hres). simpl.
  split; [now apply wf_save_row|].
  eexists. split; [|split].
  - unfold save_row. simpl. rewrite filter_app, E0. simpl.
    unfold by_session_and_ip. simpl. fold sk. fold ip.
    rewrite !String.eqb_refl. simpl. reflexivity.
  - reflexivity.
  - reflexivity.
Qed.

(** C2, as stated, fails: a second request exactly one hour after the
    first is not more than one hour after it, yet it restarts the session
    window, and the one record of the pair has 1 page view after 2
    requests. *)
Lemma page_views_restart_at_one_hour :
  let first := mkCall VisitorTracking
                 (Sample.page "A" "10.0.0.1" "UA-X" "/") (Sample.minutes 0) in
  let second := mkCall VisitorTracking
                  (Sample.page "A" "10.0.0.1" "UA-X" "/next/") (Sample.minutes 60) in
  let db := run Sample.env [first; second] empty_store in
  tracked Sample.env (call_request first) = true
  /\ tracked Sample.env (call_request second) = true
  /\ call_clock second - call_clock first <= timedelta_hours 1
  /\ call_clock second - call_clock first
     < timedelta_hours (cleanup_timeout Sample.env)
  /\ exists v, filter (by_session_and_ip "A" "10.0.0.1") (rows db) = [v]
               /\ page_views v = 1
               /\ page_views v <> 2.
Proof.
  cbv zeta. repeat split; try reflexivity; try (vm_compute; discriminate).
  eexists. split; [vm_compute; reflexivity|].
  split; [reflexivity | discriminate].
Qed.

(** C2, amended.  Take N >= 1 tracked requests with one (session key,
    address) pair, the first of which finds no record of the pair and no
    recent record of its address and user agent, each later one less than
    one hour after the one before it, with clean-up runs in between only
    while the last request is inside the retention window.  Afterwards the
    table holds exactly one record for the pair, and its page views are
    N. *)
Theorem one_record_counts_requests
    (env : Env) (first : call) (rest : list call) (db : Store) :
  let sk := session_session_key (call_request first) in
  let ip := ip_of (call_request first) in
  let ua := agent_of (call_request first) in
  let N := 1 + visits rest in
  wf db ->
  call_mw first = VisitorTracking ->
  tracked env (call_request first) = true ->
  (forall w, In w (rows db) -> ~ exact_match sk ip w) ->
  (forall w, In w (rows db) -> ~ recent_match ip ua (call_clock first) w) ->
  same_session env sk ip (call_clock first) rest ->
  N >= 1
  /\ exists v,
       filter (by_session_and_ip sk ip) (rows (run env (first :: rest) db)) = [v]
       /\ page_views v = N.
Proof.
  intros sk ip ua N Hwf Hmw Htr Hex Hrec Hsame.
  assert (Hv : 0 <= visits rest).
  { clear. induction rest as [|c rest IH]; cbn [visits]; [lia|].
    destruct (call_mw c); lia. }
  split; [unfold N; lia|].
  rewrite run_cons. unfold step. rewrite Hmw. cbn [process_request_of].
  pose proof (one_record_first env (call_request first) (call_clock first)
                db Hwf Htr Hex Hrec) as Hone.
  destruct (one_record_run env sk ip rest 1 (call_clock first) _ Hone Hsame)
    as (last' & _ & v & Hsel & Hn & _).
  exists v. split; [exact Hsel | exact Hn].
Qed.

(** Three requests within the hour, a clean-up run before the last one. *)
Lemma one_record_counts_requests_witness :
  let first := mkCall VisitorTracking
                 (Sample.page "A" "10.0.0.1" "UA-X" "/") (Sample.minutes 0) in
  let rest :=
    [ mkCall VisitorTracking
        (Sample.page "A" "10.0.0.1" "UA-X" "/a/") (Sample.minutes 30);
      mkCall VisitorCleanUp
        (Sample.page "A" "10.0.0.1" "UA-X" "/b/") (Sample.minutes 89);
      mkCall VisitorTracking
        (Sample.page "A" "10.0.0.1" "UA-Z" "/b/") (Sample.minutes 89) ] in
  3 >= 1
  /\ exists v,
       filter (by_session_and_ip "A" "10.0.0.1")
              (rows (run Sample.env (first :: rest) empty_store)) = [v]
       /\ page_views v = 3.
Proof.
  intros first rest.
  apply (one_record_counts_requests Sample.env first rest empty_store).
  - exact wf_empty.
  - reflexivity.
  - reflexivity.
  - intros w [].
  - intros w [].
  - simpl. unfold Sample.minutes, timedelta_minutes, timedelta_hours. simpl.
    repeat split; lia.
Defined.

(** ** Exclusion *)

(** C7.  A request whose path starts with an untracked prefix (one of the
    registered prefixes or one of the two media settings), or whose user
    agent contains an untracked keyword, returns before resolution: the
    call ends normally and the table is the one it was given. *)
Theorem excluded_request_leaves_table
    (env : Env) (request : HttpRequest) (now : datetime) (db : Store) :
  (exists prefix rest,
      (In prefix (untracked_prefixes env)
       \/ prefix = MEDIA_URL env \/ prefix = ADMIN_MEDIA_PREFIX env)
      /\ path request = (prefix ++ rest)%string)
  \/ (exists keyword before after,
         In keyword (untracked_user_agents env)
         /\ agent_of request = (before ++ keyword ++ after)%string) ->
  tracked env request = false
  /\ process_request env request now db = (Ok tt, db).
Proof.
  intros H.
  assert (Hnot : tracked env request = false).
  { unfold tracked. destruct H as [(prefix & rest & Hin & Hp)
                                  |(keyword & a & b & Hin & Hua)].
    - assert (V : validURL env request = false).
      { unfold validURL. apply negb_false_iff, existsb_exists.
        exists prefix. split.
        - unfold prefixes. rewrite in_app_iff. simpl.
          destruct Hin as [Hin|[->| ->]]; auto.
        - rewrite Hp. apply startswith_app. }
      rewrite V. apply andb_false_r.
    - assert (U : untracked_agent env request = true).
      { unfold untracked_agent. apply existsb_exists.
        exists keyword. split; [exact Hin|].
        apply negb_true_iff, Z.eqb_neq, find_iff. now exists a, b. }
      rewrite U. simpl. now rewrite andb_false_r. }
  split; [exact Hnot | now apply process_request_untracked].
Qed.

(** A crawler asking for a page, and a browser asking for a static file. *)
Lemma excluded_request_leaves_table_witness :
  process_request Sample.env
    (Sample.page "s9" "1.2.3.4" "Mozilla/5.0 (compatible; Googlebot/2.1)" "/")
    (Sample.minutes 1) Sample.one_visitor
  = (Ok tt, Sample.one_visitor)
  /\ process_request Sample.env
       (Sample.page "s9" "1.2.3.4" "UA-X" "/static/site.css")
       (Sample.minutes 1) Sample.one_visitor
     = (Ok tt, Sample.one_visitor).
Proof.
  split.
  - apply (excluded_request_leaves_table Sample.env
             (Sample.page "s9" "1.2.3.4"
                          "Mozilla/5.0 (compatible; Googlebot/2.1)" "/")).
    right. exists "Googlebot", "Mozilla/5.0 (compatible; ", "/2.1)".
    split; [simpl; auto | reflexivity].
  - apply (excluded_request_leaves_table Sample.env
             (Sample.page "s9" "1.2.3.4" "UA-X" "/static/site.css")).
    left. exists "/static/", "site.css".
    split; [left; simpl; auto | reflexivity].
Defined.

(** ** Clean-up *)

(** C8.  Deleting the records last updated at or before a cutoff ends
    normally and keeps exactly the rows of the table whose last update is
    not at or before the cutoff, each as it was: any lookup on the new
    table selects what it selected on the old one, less the deleted rows.
    The clean-up middleware does this with the cutoff [now] minus the
    retention hours. *)
Theorem cleanup_deletes_exactly_old
    (env : Env) (request : HttpRequest) (now cutoff : datetime) (db : Store) :
  let old v := exists t, last_update v = Some t /\ t <= cutoff in
  let db' := snd (filter_delete (last_update_lte cutoff) db) in
  fst (filter_delete (last_update_lte cutoff) db) = Ok tt
  /\ (forall v, In v (rows db') <-> In v (rows db) /\ ~ old v)
  /\ (forall p, filter p (rows db')
                = filter (fun v => p v && negb (last_update_lte cutoff v))
                         (rows db))
  /\ next_pk db' = next_pk db
  /\ VisitorCleanUpMiddleware.process_request env request now db
     = filter_delete
         (last_update_lte (now - timedelta_hours (cleanup_timeout env))) db.
Proof.
  intros old db'. split; [reflexivity|].
  split; [|split; [|split; reflexivity]].
  - intros v. unfold db'. simpl. rewrite filter_In, negb_true_iff.
    unfold old. rewrite <- last_update_lte_iff.
    destruct (last_update_lte cutoff v); intuition congruence.
  - intros p. unfold db'. simpl. apply filter_both.
Qed.

(** ** Banned addresses *)

(** C6.  With the ban middleware first in the chain, a request from an
    address on the ban list raises [Http404] before any other middleware
    runs and the table is the one it was given; a request from any other
    address goes through the rest of the chain as if the ban middleware
    were not installed. *)
Theorem banned_ip_gate
    (env : Env) (request : HttpRequest) (now : datetime)
    (chain : list (middleware * datetime)) (db : Store) :
  let ip := dict_get (META request) "REMOTE_ADDR" "" in
  (In ip (banned_ips env) ->
     BannedIPMiddleware.process_request env request now db = (Raise Http404, db)
     /\ handle env request ((BannedIP, now) :: chain) db = (Raise Http404, db))
  /\ (~ In ip (banned_ips env) ->
        BannedIPMiddleware.process_request env request now db = (Ok tt, db)
        /\ handle env request ((BannedIP, now) :: chain) db
           = handle env request chain db).
Proof.
  intros ip. simpl. unfold bind, BannedIPMiddleware.process_request.
  fold ip. split; intros H.
  - apply mem_iff in H. rewrite H. split; reflexivity.
  - assert (E : Str.mem ip (banned_ips env) = false).
    { destruct (Str.mem ip (banned_ips env)) eqn:E; [|reflexivity].
      apply mem_iff in E. contradiction. }
    rewrite E. split; reflexivity.
Qed.

(** A banned address is stopped before tracking; another one is tracked. *)
Lemma banned_ip_gate_witness :
  handle Sample.env (Sample.page "s6" "6.6.6.6" "UA-X" "/")
         [(BannedIP, Sample.minutes 1); (VisitorTracking, Sample.minutes 1)]
         Sample.one_visitor
  = (Raise Http404, Sample.one_visitor)
  /\ handle Sample.env Sample.rotated
            [(BannedIP, Sample.minutes 1); (VisitorTracking, Sample.minutes 1)]
            Sample.one_visitor
     = handle Sample.env Sample.rotated
              [(VisitorTracking, Sample.minutes 1)] Sample.one_visitor.
Proof.
  split.
  - apply (banned_ip_gate Sample.env (Sample.page "s6" "6.6.6.6" "UA-X" "/")).
    simpl. auto.
  - apply (banned_ip_gate Sample.env Sample.rotated).
    simpl. intros [H|[]]. discriminate.
Defined.

(** ** The analytics beacon *)

Import GoogleAnalyticsMiddleware.

Lemma lazy_group_eq (s : string) :
  lazy_group s
  = if Str.startswith s "</title>" then Some ""%string
    else match s with
         | EmptyString => None
         | String c s' =>
             if Ascii.eqb c newline then None
             else match lazy_group s' with
                  | Some g => Some (String c g)
                  | None => None
                  end
         end.
Proof. destruct s; reflexivity. Qed.

Lemma title_re_search_eq (s : string) :
  title_re_search s
  = match match_here s with
    | Some g => Some g
    | None => match s with
              | EmptyString => None
              | String _ s' => title_re_search s'
              end
    end.
Proof. destruct s; reflexivity. Qed.

Lemma lazy_group_sound (s g : string) :
  lazy_group s = Some g -> exists b, s = (g ++ "</title>" ++ b)%string.
Proof.
  revert g; induction s as [|c s IH]; intros g H; rewrite lazy_group_eq in H.
  - discriminate.
  - destruct (Str.startswith (String c s) "</title>") eqn:E.
    + injection H as <-. now apply startswith_split in E.
    + destruct (Ascii.eqb c newline); [discriminate|].
      destruct (lazy_group s) as [g'|]; [|discriminate].
      injection H as <-. destruct (IH g' eq_refl) as [b ->].
      now exists b.
Qed.

Lemma match_here_sound (s g : string) :
  match_here s = Some g ->
  exists b, s = ("<title>" ++ g ++ "</title>" ++ b)%string.
Proof.
  unfold match_here. destruct (Str.startswith s "<title>") eqn:E; [|discriminate].
  apply startswith_split in E as [r ->].
  change 7%nat with (String.length "<title>"). rewrite drop_app.
  intros H. apply lazy_group_sound in H as [b ->]. now exists b.
Qed.

(** What the search finds stands between a [<title>] and a [</title>]. *)
Lemma title_re_search_sound (s g : string) :
  title_re_search s = Some g ->
  exists a b, s = (a ++ "<title>" ++ g ++ "</title>" ++ b)%string.
Proof.
  induction s as [|c s IH]; rewrite title_re_search_eq; intros H.
  - discriminate.
  - destruct (match_here (String c s)) as [g'|] eqn:E.
    + injection H as <-. apply match_here_sound in E as [b E].
      exists ""%string, b. exact E.
    + destruct (IH H) as (a & b & ->). now exists (String c a), b.
Qed.

Lemma title_re_search_no_tag (s : string) :
  (forall a b, s <> (a ++ "<title>" ++ b)%string) ->
  title_re_search s = None.
Proof.
  intros H. destruct (title_re_search s) as [g|] eqn:E; [|reflexivity].
  apply title_re_search_sound in E as (a & b & E).
  exfalso. apply (H a (g ++ "</title>" ++ b)%string). exact E.
Qed.

Lemma title_defaults_to_empty_total (response : HttpResponse) :
  exists title, extract_title response = Ok title.
Proof.
  unfold extract_title.
  destruct (title_re_search (content response)); simpl; eauto.
Qed.

(** C9.  Extracting the title raises nothing, whatever the content.  When
    the search finds no match, and so when the content has no [<title>]
    tag, the title is the empty string, and the payload sent is the one
    built with the empty title. *)
Theorem title_defaults_to_empty (response : HttpResponse) :
  (exists title, extract_title response = Ok title)
  /\ (title_re_search (content response) = None ->
      extract_title response = Ok "")
  /\ ((forall a b, content response <> (a ++ "<title>" ++ b)%string) ->
      extract_title response = Ok ""
      /\ forall urlopen env draws request,
           info_title (info_of env draws request "") = ""
           /\ process_response urlopen env draws request response
              = match urlopen collector (data_of (info_of env draws request "")) with
                | Raise e => Raise e
                | Ok _ => Ok response
                end).
Proof.
  unfold extract_title. split; [|split].
  - destruct (title_re_search (content response)); simpl; eauto.
  - intros ->. reflexivity.
  - intros H. apply title_re_search_no_tag in H.
    split; [now rewrite H|].
    intros urlopen env draws request. split; [reflexivity|].
    unfold process_response, extract_title. now rewrite H.
Qed.

(** A body without a title, and one whose title is never closed. *)
Lemma title_defaults_to_empty_witness :
  extract_title (mkResponse 200 "<html><body>feed</body></html>") = Ok ""
  /\ extract_title (mkResponse 200 "<html><title>Late") = Ok "".
Proof.
  split.
  - apply (title_defaults_to_empty
             (mkResponse 200 "<html><body>feed</body></html>")).
    intros a b E.
    assert (F : Str.find "<html><body>feed</body></html>" "<title>" <> -1)
      by (apply find_iff; exists a, b; exact E).
    vm_compute in F. congruence.
  - apply (proj1 (proj2 (title_defaults_to_empty
                           (mkResponse 200 "<html><title>Late")))).
    reflexivity.
Defined.

(** C5, as stated, fails: when [urlopen] raises, [process_response] raises
    the same exception and returns no response. *)
Lemma beacon_failure_propagates :
  let urlopen := fun (_ _ : string) => @Raise unit URLError in
  let request := Sample.page "s1" "1.2.3.4" "UA-X" "/" in
  let response := mkResponse 200 "<html><title>Home</title></html>" in
  let draws := mkDraws 1234567890 12345678 1234567890 1300000000 in
  process_response urlopen Sample.env draws request response = Raise URLError
  /\ process_response urlopen Sample.env draws request response <> Ok response.
Proof.
  cbv zeta. split; [reflexivity | discriminate].
Qed.

(** C5, amended.  Title extraction never changes the outcome, and when the
    call to the collector returns, [process_response] returns the response
    it was given, unchanged; when the call raises, the exception is the
    outcome of [process_response]. *)
Theorem beacon_outcome
    (urlopen : string -> string -> result unit)
    (env : Env) (draws : Draws) (request : HttpRequest) (response : HttpResponse) :
  exists title,
    extract_title response = Ok title
    /\ let data := data_of (info_of env draws request title) in
       (forall u, urlopen collector data = Ok u ->
          process_response urlopen env draws request response = Ok response)
       /\ (forall e, urlopen collector data = Raise e ->
             process_response urlopen env draws request response = Raise e).
Proof.
  destruct (title_defaults_to_empty_total response) as [title Ht].
  exists title. split; [exact Ht|].
  unfold process_response. rewrite Ht. cbv zeta.
  split; intros x Hx; now rewrite Hx.
Qed.

(** A collector that answers. *)
Lemma beacon_outcome_witness :
  let urlopen := fun (_ _ : string) => Ok tt in
  let request := Sample.page "s1" "1.2.3.4" "UA-X" "/" in
  let response := mkResponse 200 "<html><title>Home</title></html>" in
  let draws := mkDraws 1234567890 12345678 1234567890 1300000000 in
  process_response urlopen Sample.env draws request response = Ok response.
Proof.
  intros urlopen request response draws.
  destruct (beacon_outcome urlopen Sample.env draws request response)
    as (title & _ & Hok & _).
  apply (Hok tt). reflexivity.
Defined.

(** * Further properties of the middleware *)

(** ** What resolution returns *)

Lemma resolve_cases (request : HttpRequest) (now : datetime) (db db1 : Store)
    (v : Visitor) :
  resolve request now db = (Ok v, db1) ->
  db1 = db
  /\ (In v (rows db)
      /\ exact_match (session_session_key request) (ip_of request) v
      \/ (exists r, In r (rows db)
                    /\ recent_match (ip_of request) (agent_of request) now r
                    /\ v = set_session_key r (session_session_key request))
      \/ v = Visitor_init (session_session_key request) (ip_of request)).
Proof.
  intros H.
  pose proof (resolve_reads request now db) as Hr. rewrite H in Hr.
  simpl in Hr. split; [exact Hr|]. subst db1.
  destruct (filter (by_session_and_ip (session_session_key request)
                      (ip_of request)) (rows db)) as [|e [|e2 l]] eqn:E0.
  - destruct (filter (by_ip_agent_since (ip_of request) (agent_of request)
                        (now - timedelta_minutes 5)) (rows db))
      as [|r [|r2 l]] eqn:E1.
    + rewrite (resolve_new request now db E0 E1) in H.
      right. right. congruence.
    + rewrite (resolve_recent request now db r E0 E1) in H.
      right. left. exists r.
      destruct (filter_singleton_holds _ _ _ E1) as [Hin Hp].
      apply by_ip_agent_since_iff in Hp.
      split; [exact Hin | split; [exact Hp | congruence]].
    + rewrite (resolve_recent_many request now db r r2 l E0 E1) in H.
      discriminate.
  - rewrite (resolve_exact request now db e E0) in H.
    destruct (filter_singleton_holds _ _ _ E0) as [Hin Hp].
    apply by_session_and_ip_iff in Hp. left.
    replace v with e by congruence. tauto.
  - rewrite (resolve_exact_many request now db e e2 l E0) in H. discriminate.
Qed.

Lemma resolve_pair (request : HttpRequest) (now : datetime) (db db1 : Store)
    (v : Visitor) :
  resolve request now db = (Ok v, db1) ->
  exact_match (session_session_key request) (ip_of request) v.
Proof.
  intros H. destruct (resolve_cases _ _ _ _ _ H) as [_ [[_ Hm]|[(r & _ & Hr & ->)| ->]]].
  - exact Hm.
  - split; [reflexivity|]. simpl. apply Hr.
  - split; reflexivity.
Qed.

Lemma resolve_raises (request : HttpRequest) (now : datetime) (db db1 : Store)
    (e : exn) :
  resolve request now db = (Raise e, db1) ->
  e = MultipleObjectsReturned /\ db1 = db
  /\ let exact := filter (by_session_and_ip (session_session_key request)
                            (ip_of request)) (rows db) in
     let recent := filter (by_ip_agent_since (ip_of request) (agent_of request)
                             (now - timedelta_minutes 5)) (rows db) in
     (2 <= List.length exact)%nat
     \/ exact = [] /\ (2 <= List.length recent)%nat.
Proof.
  intros H. cbv zeta.
  destruct (filter (by_session_and_ip (session_session_key request)
                      (ip_of request)) (rows db)) as [|x [|x2 l]] eqn:E0.
  - destruct (filter (by_ip_agent_since (ip_of request) (agent_of request)
                        (now - timedelta_minutes 5)) (rows db))
      as [|r [|r2 l]] eqn:E1.
    + rewrite (resolve_new request now db E0 E1) in H. discriminate.
    + rewrite (resolve_recent request now db r E0 E1) in H. discriminate.
    + rewrite (resolve_recent_many request now db r r2 l E0 E1) in H.
      injection H as <- <-. repeat split. right. split; [reflexivity|].
      simpl. lia.
  - rewrite (resolve_exact request now db x E0) in H. discriminate.
  - rewrite (resolve_exact_many request now db x x2 l E0) in H.
    injection H as <- <-. repeat split. left. simpl. lia.
Qed.

(** X1.  A call of the tracking middleware that does anything but return
    with the table as it was is a call for a request that is not an AJAX
    request, whose user agent contains none of the untracked keywords and
    whose path starts with none of the untracked prefixes. *)
Theorem tracking_only_past_the_gates
    (env : Env) (request : HttpRequest) (now : datetime) (db : Store) :
  process_request env request now db <> (Ok tt, db) ->
  is_ajax request = false
  /\ (forall keyword before after,
        In keyword (untracked_user_agents env) ->
        agent_of request <> (before ++ keyword ++ after)%string)
  /\ (forall prefix rest,
        In prefix (untracked_prefixes env)
        \/ prefix = MEDIA_URL env \/ prefix = ADMIN_MEDIA_PREFIX env ->
        path request <> (prefix ++ rest)%string).
Proof.
  intros H.
  assert (Htr : tracked env request = true).
  { destruct (tracked env request) eqn:E; [reflexivity|].
    exfalso. apply H. now apply process_request_untracked. }
  apply tracked_gates in Htr as (Hajax & Hua & Hurl).
  split; [exact Hajax|]. split.
  - intros keyword a b Hin E.
    unfold untracked_agent in Hua.
    assert (Hk : negb (Str.find (agent_of request) keyword =? -1) = false).
    { destruct (negb _) eqn:N; [|reflexivity].
      rewrite <- Hua. symmetry. apply existsb_exists. now exists keyword. }
    apply negb_false_iff, Z.eqb_eq in Hk.
    assert (Hf : Str.find (agent_of request) keyword <> -1)
      by (apply find_iff; now exists a, b).
    contradiction.
  - intros prefix rest Hin E.
    unfold validURL in Hurl. apply negb_true_iff in Hurl.
    assert (Hp : Str.startswith (path request) prefix = false).
    { destruct (Str.startswith _ _) eqn:N; [|reflexivity].
      rewrite <- Hurl. symmetry. apply existsb_exists. exists prefix.
      split; [|exact N].
      unfold prefixes. rewrite in_app_iff. simpl.
      destruct Hin as [Hin|[->| ->]]; auto. }
    rewrite E, startswith_app in Hp. discriminate.
Qed.

Lemma tracking_only_past_the_gates_witness :
  is_ajax Sample.rotated = false
  /\ (forall keyword before after,
        In keyword (untracked_user_agents Sample.env) ->
        agent_of Sample.rotated <> (before ++ keyword ++ after)%string)
  /\ (forall prefix rest,
        In prefix (untracked_prefixes Sample.env)
        \/ prefix = MEDIA_URL Sample.env
        \/ prefix = ADMIN_MEDIA_PREFIX Sample.env ->
        path Sample.rotated <> (prefix ++ rest)%string).
Proof.
  apply (tracking_only_past_the_gates Sample.env Sample.rotated
           (Sample.minutes 4) Sample.one_visitor).
  vm_compute. intros H. discriminate H.
Defined.

(** X2.  [MultipleObjectsReturned] leaves the tracking middleware exactly
    when the request is tracked and a lookup selects two rows or more: the
    one by session key and address, or, that one selecting none, the one
    by address, user agent and recency.  When it does, nothing was
    written. *)
Theorem multiple_objects_exactly_when_ambiguous
    (env : Env) (request : HttpRequest) (now : datetime) (db : Store) :
  let exact := filter (by_session_and_ip (session_session_key request)
                         (ip_of request)) (rows db) in
  let recent := filter (by_ip_agent_since (ip_of request) (agent_of request)
                          (now - timedelta_minutes 5)) (rows db) in
  (fst (process_request env request now db) = Raise MultipleObjectsReturned
   <-> tracked env request = true
       /\ ((2 <= List.length exact)%nat
           \/ exact = [] /\ (2 <= List.length recent)%nat))
  /\ (fst (process_request env request now db) = Raise MultipleObjectsReturned ->
      snd (process_request env request now db) = db).
Proof.
  intros exact recent. split; [split|].
  - intros H. destruct (tracked env request) eqn:Htr.
    + split; [reflexivity|].
      destruct (resolve request now db) as [[v|e] db1] eqn:Hres.
      * rewrite (process_request_resolved _ _ _ _ _ _ Htr Hres) in H.
        discriminate.
      * now destruct (resolve_raises _ _ _ _ _ Hres) as (_ & _ & Hmany).
    + rewrite process_request_untracked in H by exact Htr. discriminate.
  - intros [Htr Hmany]. unfold exact, recent in Hmany.
    destruct Hmany as [Hex|[Hex Hrec]].
    + destruct (filter (by_session_and_ip _ _) (rows db))
        as [|a [|b l]] eqn:E0; simpl in Hex; try lia.
      now rewrite (process_request_raised _ _ _ _ _ _ Htr
                     (resolve_exact_many request now db a b l E0)).
    + destruct (filter (by_ip_agent_since _ _ _) (rows db))
        as [|a [|b l]] eqn:E1; simpl in Hrec; try lia.
      now rewrite (process_request_raised _ _ _ _ _ _ Htr
                     (resolve_recent_many request now db a b l Hex E1)).
  - intros H. destruct (tracked env request) eqn:Htr.
    + destruct (resolve request now db) as [[v|e] db1] eqn:Hres.
      * rewrite (process_request_resolved _ _ _ _ _ _ Htr Hres) in H.
        discriminate.
      * destruct (resolve_raises _ _ _ _ _ Hres) as (_ & -> & _).
        now rewrite (process_request_raised _ _ _ _ _ _ Htr Hres).
    + now rewrite process_request_untracked.
Qed.

Lemma multiple_objects_exactly_when_ambiguous_witness :
  fst (process_request Sample.env Sample.third_session (Sample.minutes 3)
                       Sample.two_candidates)
  = Raise MultipleObjectsReturned
  /\ snd (process_request Sample.env Sample.third_session (Sample.minutes 3)
                          Sample.two_candidates)
     = Sample.two_candidates.
Proof.
  destruct (multiple_objects_exactly_when_ambiguous Sample.env
              Sample.third_session (Sample.minutes 3) Sample.two_candidates)
    as [[_ Hraise] Hkeep].
  assert (H : fst (process_request Sample.env Sample.third_session
                     (Sample.minutes 3) Sample.two_candidates)
              = Raise MultipleObjectsReturned).
  { apply Hraise. split; [reflexivity|].
    right. split; [reflexivity|]. vm_compute. lia. }
  split; [exact H | exact (Hkeep H)].
Defined.

(** ** Tables the middleware has built *)

Lemma filter_at_most_one (p : Visitor -> bool) (rs : list Visitor) (v : Visitor) :
  (List.length (filter p rs) <= 1)%nat -> In v rs -> p v = true ->
  filter p rs = [v].
Proof.
  intros Hlen Hin Hp.
  assert (Hf : In v (filter p rs)) by (apply filter_In; auto).
  destruct (filter p rs) as [|a [|b l]]; simpl in *.
  - contradiction.
  - destruct Hf as [->|[]]. reflexivity.
  - lia.
Qed.

(** X3.  On a table built from the empty one by any calls of the three
    request middleware, a request whose session key and address are those
    of a stored record resolves to that record, whatever else is stored,
    and a tracked one is saved over it. *)
Theorem returning_visitor_resolves
    (env : Env) (calls : list call) (request : HttpRequest) (now : datetime)
    (v : Visitor) :
  let db := run env calls empty_store in
  In v (rows db) ->
  session_key v = session_session_key request ->
  ip_address v = ip_of request ->
  resolve request now db = (Ok v, db)
  /\ (tracked env request = true ->
      process_request env request now db
      = (Ok tt, save_row (touch request now v) db)).
Proof.
  intros db Hin Hsk Hip.
  destruct (reachable_tables env calls empty_store wf_empty) as [_ Hu].
  { intros sk ip. simpl. lia. }
  assert (Hres : resolve request now db = (Ok v, db)).
  { apply resolve_exact. apply filter_at_most_one.
    - apply Hu.
    - exact Hin.
    - apply by_session_and_ip_iff. now split. }
  split; [exact Hres|].
  intros Htr. now apply process_request_resolved.
Qed.

Lemma returning_visitor_resolves_witness :
  exists v,
    In v (rows Sample.two_candidates)
    /\ resolve (Sample.page "B" "10.0.0.1" "UA-Y" "/") (Sample.minutes 3)
               Sample.two_candidates
       = (Ok v, Sample.two_candidates).
Proof.
  eexists. split.
  - right. left. reflexivity.
  - apply (returning_visitor_resolves Sample.env
             [Sample.first_session; Sample.second_session;
              Sample.first_session_again]
             (Sample.page "B" "10.0.0.1" "UA-Y" "/") (Sample.minutes 3)).
    + right. left. reflexivity.
    + reflexivity.
    + reflexivity.
Defined.

(** X4.  After a tracked request that ends normally, on a table with
    primary keys and at most one row per pair, the lookup by the request's
    session key and address selects exactly one row, and that row has the
    request's path, user agent and user and was last updated now. *)
Theorem tracked_visit_is_recorded
    (env : Env) (request : HttpRequest) (now : datetime) (db : Store) :
  let db' := snd (process_request env request now db) in
  wf db -> unique_pairs db ->
  tracked env request = true ->
  fst (process_request env request now db) = Ok tt ->
  exists v,
    objects_get (by_session_and_ip (session_session_key request)
                                   (ip_of request)) db' = (Ok v, db')
    /\ url v = path request
    /\ user_agent v = agent_of request
    /\ user v = match request_user request with
                | AnonymousUser => None
                | User id => Some id
                end
    /\ last_update v = Some now.
Proof.
  intros db' Hwf Hu Htr Hok.
  pose proof (unique_pairs_process_request env request now db Hwf Hu) as Hu'.
  fold db' in Hu'.
  destruct (resolve request now db) as [[w|e] db1] eqn:Hres.
  - pose proof (resolve_pair _ _ _ _ _ Hres) as Hpair.
    destruct (resolve_cases _ _ _ _ _ Hres) as [-> _].
    pose proof (process_request_resolved _ _ _ _ _ _ Htr Hres) as Hpr.
    set (saved := touch request now w) in *.
    exists (stored saved db).
    assert (Hin : In (stored saved db) (rows db')).
    { unfold db'. rewrite Hpr. apply save_row_stored. }
    assert (Hfields : forall x, x = saved \/ x = set_pk saved (next_pk db) ->
              by_session_and_ip (session_session_key request) (ip_of request) x
              = true
              /\ url x = path request /\ user_agent x = agent_of request
              /\ user x = match request_user request with
                          | AnonymousUser => None
                          | User id => Some id
                          end
              /\ last_update x = Some now).
    { intros x [->| ->]; (split; [apply by_session_and_ip_iff; exact Hpair|]);
        repeat split. }
    assert (Hst : stored saved db = saved
                  \/ stored saved db = set_pk saved (next_pk db)).
    { unfold stored. destruct (pk saved); auto. }
    destruct (Hfields _ Hst) as (Hp & Hrest).
    split; [|exact Hrest].
    unfold objects_get.
    rewrite (filter_at_most_one _ _ _ (Hu' _ _) Hin Hp). reflexivity.
  - rewrite (process_request_raised _ _ _ _ _ _ Htr Hres) in Hok.
    discriminate.
Qed.

Lemma tracked_visit_is_recorded_witness :
  exists v,
    objects_get (by_session_and_ip "s2" "1.2.3.4")
      (snd (process_request Sample.env Sample.rotated (Sample.minutes 6)
                            Sample.one_visitor))
    = (Ok v, snd (process_request Sample.env Sample.rotated (Sample.minutes 6)
                                  Sample.one_visitor))
    /\ url v = "/about/"
    /\ user_agent v = "UA-X"
    /\ user v = None
    /\ last_update v = Some (Sample.minutes 6).
Proof.
  apply (tracked_visit_is_recorded Sample.env Sample.rotated
           (Sample.minutes 6) Sample.one_visitor).
  - split; simpl.
    + constructor; [simpl; tauto | constructor].
    + constructor; [|constructor]. exists 1. split; [reflexivity | lia].
  - intros sk ip. simpl. destruct (by_session_and_ip sk ip Sample.seen);
      simpl; lia.
  - reflexivity.
  - reflexivity.
Defined.

(** X5.  The tracking middleware deletes nothing and writes at most one
    row: the keys of the rows, in order, are afterwards the same, or the
    same followed by one new key. *)
Theorem tracking_keeps_every_key
    (env : Env) (request : HttpRequest) (now : datetime) (db : Store) :
  let db' := snd (process_request env request now db) in
  map pk (rows db') = map pk (rows db)
  \/ exists k, map pk (rows db') = map pk (rows db) ++ [Some k].
Proof.
  intros db'. unfold db'. destruct (tracked env request) eqn:Htr.
  - destruct (resolve request now db) as [[w|e] db1] eqn:Hres.
    + destruct (resolve_cases _ _ _ _ _ Hres) as [-> _].
      rewrite (process_request_resolved _ _ _ _ _ _ Htr Hres). cbn [snd].
      unfold save_row.
      destruct (pk (touch request now w)) as [k|] eqn:Hk.
      * destruct (existsb (pk_is k) (rows db)); simpl.
        -- left. now apply replace_row_pks.
        -- right. exists k. rewrite map_app. simpl in Hk |- *.
           now rewrite Hk.
      * right. exists (next_pk db). simpl. now rewrite map_app.
    + destruct (resolve_raises _ _ _ _ _ Hres) as (_ & -> & _).
      rewrite (process_request_raised _ _ _ _ _ _ Htr Hres). now left.
  - rewrite process_request_untracked by exact Htr. now left.
Qed.

Lemma tracking_keeps_every_key_length
    (env : Env) (request : HttpRequest) (now : datetime) (db : Store) :
  (List.length (rows (snd (process_request env request now db)))
   <= S (List.length (rows db)))%nat.
Proof.
  destruct (tracked env request) eqn:Htr.
  - destruct (resolve request now db) as [[w|e] db1] eqn:Hres.
    + destruct (resolve_cases _ _ _ _ _ Hres) as [-> _].
      rewrite (process_request_resolved _ _ _ _ _ _ Htr Hres). cbn [snd].
      unfold save_row. destruct (pk (touch request now w)) as [k|].
      * destruct (existsb (pk_is k) (rows db)); simpl.
        -- unfold replace_row. rewrite length_map. lia.
        -- rewrite length_app. simpl. lia.
      * simpl. rewrite length_app. simpl. lia.
    + destruct (resolve_raises _ _ _ _ _ Hres) as (_ & -> & _).
      rewrite (process_request_raised _ _ _ _ _ _ Htr Hres). simpl. lia.
  - rewrite process_request_untracked by exact Htr. simpl. lia.
Qed.

Lemma NoDup_map_pk_inj (rs : list Visitor) (a b : Visitor) :
  NoDup (map pk rs) -> In a rs -> In b rs -> pk a = pk b -> a = b.
Proof.
  induction rs as [|x rs IH]; simpl; intros ND Ha Hb E; [contradiction|].
  inversion ND as [|y ys Hnotin ND']; subst.
  destruct Ha as [->|Ha], Hb as [->|Hb]; auto.
  - exfalso. apply Hnotin. rewrite E. now apply in_map.
  - exfalso. apply Hnotin. rewrite <- E. now apply in_map.
Qed.

Lemma replace_row_keeps (k : Z) (v' r : Visitor) (rs : list Visitor) :
  In r rs -> pk r <> Some k -> In r (replace_row k v' rs).
Proof.
  intros Hin Hk. unfold replace_row. apply in_map_iff. exists r.
  split; [|exact Hin].
  destruct (pk_is k r) eqn:E; [|reflexivity].
  apply pk_is_true in E. contradiction.
Qed.

Lemma save_row_keeps (v r : Visitor) (db : Store) :
  In r (rows db) -> pk r <> pk v -> In r (rows (save_row v db)).
Proof.
  intros Hin Hk. unfold save_row. destruct (pk v) as [k|].
  - destruct (existsb (pk_is k) (rows db)); simpl.
    + now apply replace_row_keeps.
    + apply in_or_app. now left.
  - simpl. apply in_or_app. now left.
Qed.

(** X6.  On a table with primary keys, a tracked or untracked request
    leaves as it was every row that has neither the request's session key
    and address nor its address and user agent with an update in the last
    five minutes. *)
Theorem other_visitors_untouched
    (env : Env) (request : HttpRequest) (now : datetime) (db : Store)
    (r : Visitor) :
  wf db ->
  In r (rows db) ->
  ~ exact_match (session_session_key request) (ip_of request) r ->
  ~ recent_match (ip_of request) (agent_of request) now r ->
  In r (rows (snd (process_request env request now db))).
Proof.
  intros Hwf Hin Hne Hnr. destruct (tracked env request) eqn:Htr.
  - destruct (resolve request now db) as [[w|e] db1] eqn:Hres.
    + destruct (resolve_cases _ _ _ _ _ Hres) as [-> Hcases].
      rewrite (process_request_resolved _ _ _ _ _ _ Htr Hres). simpl.
      apply save_row_keeps; [exact Hin|]. simpl.
      destruct Hwf as [ND All]. rewrite Forall_forall in All.
      destruct Hcases as [[Hw Hm]|[(x & Hx & Hm & ->)| ->]].
      * intros E. apply Hne.
        now rewrite (NoDup_map_pk_inj _ _ _ ND Hin Hw E).
      * simpl. intros E. apply Hnr.
        now rewrite (NoDup_map_pk_inj _ _ _ ND Hin Hx E).
      * simpl. destruct (All r Hin) as (k & -> & _). discriminate.
    + destruct (resolve_raises _ _ _ _ _ Hres) as (_ & -> & _).
      now rewrite (process_request_raised _ _ _ _ _ _ Htr Hres).
  - now rewrite process_request_untracked.
Qed.

Lemma other_visitors_untouched_witness :
  In Sample.seen
     (rows (snd (process_request Sample.env Sample.rotated (Sample.minutes 6)
                                 Sample.one_visitor))).
Proof.
  apply (other_visitors_untouched Sample.env Sample.rotated
           (Sample.minutes 6) Sample.one_visitor Sample.seen).
  - split; simpl.
    + constructor; [simpl; tauto | constructor].
    + constructor; [|constructor]. exists 1. split; [reflexivity | lia].
  - now left.
  - intros [H _]. discriminate.
  - intros (_ & _ & t & E & Ht). injection E as <-.
    unfold Sample.minutes, timedelta_minutes in Ht. lia.
Defined.

Lemma save_row_rows (v r : Visitor) (db : Store) :
  In r (rows (save_row v db)) -> In r (rows db) \/ r = stored v db.
Proof.
  unfold save_row, stored. destruct (pk v) as [k|].
  - destruct (existsb (pk_is k) (rows db)); simpl.
    + unfold replace_row. rewrite in_map_iff. intros (x & E & Hx).
      destruct (pk_is k x); [right | left]; congruence.
    + rewrite in_app_iff. simpl. intuition congruence.
  - simpl. rewrite in_app_iff. simpl. intuition congruence.
Qed.

Lemma touch_written (request : HttpRequest) (now : datetime) (db : Store)
    (v : Visitor) :
  row_written v \/ last_update v = None ->
  row_written (stored (touch request now v) db).
Proof.
  intros H.
  assert (Hbody : (exists t, last_update (touch request now v) = Some t)
                  /\ (exists t, session_start (touch request now v) = Some t)
                  /\ 1 <= page_views (touch request now v)).
  { simpl. split; [now exists now|].
    destruct (window_restarts now v) eqn:W.
    - split; [now exists now | lia].
    - destruct H as [(_ & _ & Hs & Hp)|Hn].
      + split; [exact Hs | lia].
      + unfold window_restarts in W. rewrite Hn in W. discriminate. }
  unfold stored, row_written.
  destruct (pk (touch request now v)) as [k|] eqn:Hk.
  - split; [now exists k | exact Hbody].
  - split; [now exists (next_pk db) | exact Hbody].
Qed.

Lemma row_written_step (env : Env) (c : call) (db : Store) :
  Forall row_written (rows db) -> Forall row_written (rows (step env db c)).
Proof.
  intros Hall. unfold step. destruct c as [mw request now]. simpl.
  destruct mw; cbn [process_request_of].
  - unfold BannedIPMiddleware.process_request.
    destruct (Str.mem _ _); exact Hall.
  - simpl. rewrite Forall_forall in *. intros r Hr.
    apply filter_In in Hr as [Hr _]. now apply Hall.
  - destruct (tracked env request) eqn:Htr;
      [|now rewrite process_request_untracked].
    destruct (resolve request now db) as [[w|e] db1] eqn:Hres.
    + destruct (resolve_cases _ _ _ _ _ Hres) as [-> Hcases].
      rewrite (process_request_resolved _ _ _ _ _ _ Htr Hres). cbn [snd].
      rewrite Forall_forall in *. intros r Hr.
      apply save_row_rows in Hr as [Hr| ->]; [now apply Hall|].
      apply touch_written.
      destruct Hcases as [[Hw _]|[(x & Hx & _ & ->)| ->]].
      * left. now apply Hall.
      * left. exact (Hall x Hx).
      * right. reflexivity.
    + destruct (resolve_raises _ _ _ _ _ Hres) as (_ & -> & _).
      now rewrite (process_request_raised _ _ _ _ _ _ Htr Hres).
Qed.

(** X7.  Every row of a table built from the empty one by calls of the
    request middleware has a key, a last update, a session start and at
    least one page view: the middleware never stores a half-filled
    record. *)
Theorem stored_rows_are_complete
    (env : Env) (calls : list call) (v : Visitor) :
  In v (rows (run env calls empty_store)) -> row_written v.
Proof.
  assert (H : forall db, Forall row_written (rows db) ->
                         Forall row_written (rows (run env calls db))).
  { induction calls as [|c calls IH]; intros db Hall; [exact Hall|].
    rewrite run_cons. apply IH. now apply row_written_step. }
  intros Hin.
  specialize (H empty_store (Forall_nil _)).
  rewrite Forall_forall in H. now apply H.
Qed.

Lemma stored_rows_are_complete_witness :
  Forall row_written (rows Sample.two_candidates).
Proof.
  apply Forall_forall. intros v Hin.
  apply (stored_rows_are_complete Sample.env
           [Sample.first_session; Sample.second_session;
            Sample.first_session_again] v).
  exact Hin.
Defined.

Lemma step_rows_length (env : Env) (db : Store) (c : call) :
  Z.of_nat (List.length (rows (step env db c)))
  <= Z.of_nat (List.length (rows db)) + visits [c].
Proof.
  unfold step. destruct c as [mw request now]. cbn [visits call_mw].
  simpl. destruct mw; cbn [process_request_of].
  - rewrite banned_ip_reads. lia.
  - simpl.
    pose proof (filter_length_le
                  (fun v => negb (last_update_lte
                     (now - timedelta_hours (cleanup_timeout env)) v))
                  (rows db)). lia.
  - pose proof (tracking_keeps_every_key_length env request now db). lia.
Qed.

(** X8.  The number of rows never exceeds the number of tracking calls:
    from the empty table, each call of the tracking middleware adds at most
    one row and no other call adds any. *)
Theorem rows_bounded_by_visits (env : Env) (calls : list call) :
  Z.of_nat (List.length (rows (run env calls empty_store))) <= visits calls.
Proof.
  assert (H : forall db,
             Z.of_nat (List.length (rows (run env calls db)))
             <= Z.of_nat (List.length (rows db)) + visits calls).
  { induction calls as [|c calls IH]; intros db; [simpl; lia|].
    rewrite run_cons. specialize (IH (step env db c)).
    pose proof (step_rows_length env db c) as Hc.
    cbn [visits] in *. destruct (call_mw c); lia. }
  specialize (H empty_store). simpl in H. lia.
Qed.

(** ** Session windows and key rotation *)



(** ** Exclusion with an empty keyword or prefix *)

(** X10.  An empty string among the untracked prefixes or keywords, or an
    empty [MEDIA_URL] or [ADMIN_MEDIA_PREFIX] setting, switches tracking
    off: every string starts with and contains the empty string, so no
    request changes the table. *)
Theorem empty_prefix_stops_all_tracking (env : Env) :
  MEDIA_URL env = "" \/ ADMIN_MEDIA_PREFIX env = ""
  \/ In "" (untracked_prefixes env) \/ In "" (untracked_user_agents env) ->
  forall request now db,
    process_request env request now db = (Ok tt, db).
Proof.
  intros H request now db. apply process_request_untracked.
  unfold tracked.
  destruct H as [H|[H|[H|H]]].
  - assert (V : validURL env request = false).
    { unfold validURL. apply negb_false_iff, existsb_exists.
      exists ""%string. split; [|reflexivity].
      unfold prefixes. rewrite in_app_iff. simpl. auto. }
    rewrite V. apply andb_false_r.
  - assert (V : validURL env request = false).
    { unfold validURL. apply negb_false_iff, existsb_exists.
      exists ""%string. split; [|reflexivity].
      unfold prefixes. rewrite in_app_iff. simpl. auto. }
    rewrite V. apply andb_false_r.
  - assert (V : validURL env request = false).
    { unfold validURL. apply negb_false_iff, existsb_exists.
      exists ""%string. split; [|reflexivity].
      unfold prefixes. rewrite in_app_iff. auto. }
    rewrite V. apply andb_false_r.
  - assert (U : untracked_agent env request = true).
    { unfold untracked_agent. apply existsb_exists.
      exists ""%string. split; [exact H|].
      apply negb_true_iff, Z.eqb_neq, find_iff.
      now exists ""%string, (agent_of request). }
    rewrite U. simpl. now rewrite andb_false_r.
Qed.

Lemma empty_prefix_stops_all_tracking_witness :
  process_request
    (mkEnv [] [] "" "/admin-media/" 24 [] "UA-0000000-1")
    Sample.rotated (Sample.minutes 4) Sample.one_visitor
  = (Ok tt, Sample.one_visitor).
Proof.
  apply (empty_prefix_stops_all_tracking
           (mkEnv [] [] "" "/admin-media/" 24 [] "UA-0000000-1")).
  left. reflexivity.
Defined.

(** ** Clean-up *)

(** X11.  Two clean-up runs do what one run at the later of their two
    clock readings does; so a run repeated at the same reading changes
    nothing more. *)
Theorem cleanup_twice
    (env : Env) (request1 request2 : HttpRequest) (now1 now2 : datetime)
    (db : Store) :
  let clean := VisitorCleanUpMiddleware.process_request env in
  snd (clean request2 now2 (snd (clean request1 now1 db)))
  = snd (clean request1 (Z.max now1 now2) db)
  /\ snd (clean request2 now1 (snd (clean request1 now1 db)))
     = snd (clean request1 now1 db).
Proof.
  assert (H : forall a b,
    snd (VisitorCleanUpMiddleware.process_request env request2 b
           (snd (VisitorCleanUpMiddleware.process_request env request1 a db)))
    = snd (VisitorCleanUpMiddleware.process_request env request1 (Z.max a b) db)).
  { intros a b. unfold VisitorCleanUpMiddleware.process_request. simpl.
    f_equal. rewrite filter_both. apply filter_ext. intros v.
    unfold last_update_lte. destruct (last_update v) as [t|]; [|reflexivity].
    rewrite <- negb_orb. f_equal.
    destruct (Z.leb_spec t (b - timedelta_hours (cleanup_timeout env))),
             (Z.leb_spec t (a - timedelta_hours (cleanup_timeout env))),
             (Z.leb_spec t (Z.max a b - timedelta_hours (cleanup_timeout env)));
      simpl; try reflexivity; lia. }
  intros clean. split; [apply H|].
  unfold clean. rewrite H. now rewrite Z.max_id.
Qed.

(** ** The ban in a chain *)

Lemma handle_app (env : Env) (request : HttpRequest)
    (c1 c2 : list (middleware * datetime)) (db : Store) :
  handle env request (c1 ++ c2) db
  = (handle env request c1 ;;; handle env request c2) db.
Proof.
  revert db. induction c1 as [|[mw now] c1 IH]; intros db; simpl.
  - reflexivity.
  - unfold bind in *.
    destruct (process_request_of mw env request now db) as [[u|e] db1];
      [apply IH | reflexivity].
Qed.



(** X13.  The order of the chain matters: with the tracking middleware
    before the ban middleware, a tracked request from a banned address is
    answered with [Http404] and yet its visit is saved. *)
Theorem tracking_before_ban_records
    (env : Env) (request : HttpRequest) (now now' : datetime)
    (db : Store) (visitor : Visitor) :
  In (dict_get (META request) "REMOTE_ADDR" "") (banned_ips env) ->
  tracked env request = true ->
  resolve request now db = (Ok visitor, db) ->
  handle env request [(VisitorTracking, now); (BannedIP, now')] db
  = (Raise Http404, save_row (touch request now visitor) db)
  /\ In (stored (touch request now visitor) db)
        (rows (snd (handle env request
                      [(VisitorTracking, now); (BannedIP, now')] db))).
Proof.
  intros Hban Htr Hres.
  assert (E : handle env request [(VisitorTracking, now); (BannedIP, now')] db
              = (Raise Http404, save_row (touch request now visitor) db)).
  { simpl. unfold bind.
    rewrite (process_request_resolved _ _ _ _ _ _ Htr Hres).
    unfold BannedIPMiddleware.process_request.
    apply mem_iff in Hban. now rewrite Hban. }
  split; [exact E|]. rewrite E. apply save_row_stored.
Qed.

Lemma tracking_before_ban_records_witness :
  let request := Sample.page "s6" "6.6.6.6" "UA-X" "/" in
  handle Sample.env request
         [(VisitorTracking, Sample.minutes 9); (BannedIP, Sample.minutes 9)]
         Sample.one_visitor
  = (Raise Http404,
     save_row (touch request (Sample.minutes 9) (Visitor_init "s6" "6.6.6.6"))
              Sample.one_visitor).
Proof.
  intros request.
  apply (tracking_before_ban_records Sample.env request (Sample.minutes 9)
           (Sample.minutes 9) Sample.one_visitor
           (Visitor_init "s6" "6.6.6.6")).
  - simpl. auto.
  - reflexivity.
  - reflexivity.
Defined.

(** ** The title search *)

Lemma find_from_shift (s sub : string) (i : Z) :
  Str.find_from s sub i
  = if Str.find_from s sub 0 =? -1 then -1 else i + Str.find_from s sub 0.
Proof.
  revert i. induction s as [|c s IH]; intros i; simpl.
  - destruct (Str.startswith "" sub); simpl; [lia | reflexivity].
  - destruct (Str.startswith (String c s) sub); simpl; [lia|].
    rewrite (IH (i + 1)), (IH 1).
    destruct (find_from_range s sub 0) as [E|E].
    + rewrite E. reflexivity.
    + destruct (Z.eqb_spec (Str.find_from s sub 0) (-1)); [lia|].
      destruct (Z.eqb_spec (1 + Str.find_from s sub 0) (-1)); lia.
Qed.

(** The first occurrence is not at the head: the head does not match and
    the first occurrence in the tail is one earlier. *)
Lemma find_past_head (c : ascii) (s sub : string) (n : Z) :
  0 <= n ->
  Str.find (String c s) sub = 1 + n ->
  Str.startswith (String c s) sub = false /\ Str.find s sub = n.
Proof.
  unfold Str.find. intros Hn H. cbn [Str.find_from] in H.
  destruct (Str.startswith (String c s) sub); [lia|].
  split; [reflexivity|].
  rewrite find_from_shift in H.
  destruct (Z.eqb_spec (Str.find_from s sub 0) (-1)); lia.
Qed.

Lemma len_cons (c : ascii) (s : string) : len (String c s) = 1 + len s.
Proof. unfold len. simpl String.length. lia. Qed.

Lemma len_nonneg (s : string) : 0 <= len s.
Proof. unfold len. lia. Qed.

Lemma find_at_head (s sub : string) :
  Str.find s sub = 0 -> Str.startswith s sub = true.
Proof.
  unfold Str.find. destruct s as [|c s]; cbn [Str.find_from].
  - destruct (Str.startswith "" sub); [reflexivity | lia].
  - destruct (Str.startswith (String c s) sub); [reflexivity|].
    destruct (find_from_range s sub (0 + 1)); lia.
Qed.

Lemma lazy_group_complete (g rest : string) :
  Str.find (g ++ rest) "</title>" = len g ->
  occurs newline g = false ->
  lazy_group (g ++ rest) = Some g.
Proof.
  induction g as [|c g IH]; intros Hf Hn.
  - rewrite lazy_group_eq. simpl (""%string ++ rest)%string in *.
    now rewrite (find_at_head _ _ Hf).
  - rewrite len_cons in Hf. simpl (String c g ++ rest)%string in *.
    destruct (find_past_head _ _ _ _ (len_nonneg g) Hf) as [Hs Hf'].
    cbn [occurs] in Hn. apply orb_false_iff in Hn as [Hc Hn].
    rewrite lazy_group_eq, Hs.
    rewrite Ascii.eqb_sym, Hc. now rewrite (IH Hf' Hn).
Qed.

Lemma title_re_search_skip (a rest : string) :
  Str.find (a ++ rest) "<title>" = len a ->
  title_re_search (a ++ rest) = title_re_search rest.
Proof.
  induction a as [|c a IH]; intros Hf; [reflexivity|].
  rewrite len_cons in Hf. simpl (String c a ++ rest)%string in *.
  destruct (find_past_head _ _ _ _ (len_nonneg a) Hf) as [Hs Hf'].
  rewrite title_re_search_eq. unfold match_here. rewrite Hs.
  now apply IH.
Qed.

Lemma lazy_group_shortest (s g : string) :
  lazy_group s = Some g ->
  occurs newline g = false
  /\ exists b, s = (g ++ "</title>" ++ b)%string
               /\ Str.find s "</title>" = len g.
Proof.
  revert g; induction s as [|c s IH]; intros g H; rewrite lazy_group_eq in H.
  - discriminate.
  - destruct (Str.startswith (String c s) "</title>") eqn:E.
    + injection H as <-. split; [reflexivity|].
      pose proof E as E'. apply startswith_split in E' as [b Hb].
      exists b. split; [exact Hb|].
      unfold Str.find. cbn [Str.find_from]. now rewrite E.
    + destruct (Ascii.eqb c newline) eqn:Hc; [discriminate|].
      destruct (lazy_group s) as [g'|]; [|discriminate].
      injection H as <-.
      destruct (IH g' eq_refl) as (Hn & b & Hb & Hf).
      split; [cbn [occurs]; now rewrite Ascii.eqb_sym, Hc, Hn|].
      exists b. split; [now rewrite Hb|].
      rewrite len_cons. unfold Str.find in *. cbn [Str.find_from]. rewrite E.
      rewrite find_from_shift, Hf.
      pose proof (len_nonneg g').
      destruct (Z.eqb_spec (len g') (-1)); lia.
Qed.

(** X14.  What the title search finds is a run of characters without a
    newline that stands in the content between a [<title>] and the first
    [</title>] after it; and it is the title that [process_response] puts
    in the payload. *)
Theorem found_title_is_tagged (response : HttpResponse) (g : string) :
  title_re_search (content response) = Some g ->
  extract_title response = Ok g
  /\ occurs newline g = false
  /\ exists a b,
       content response = (a ++ "<title>" ++ g ++ "</title>" ++ b)%string
       /\ Str.find (g ++ "</title>" ++ b) "</title>" = len g.
Proof.
  intros H. split; [unfold extract_title; now rewrite H|].
  remember (content response) as s eqn:Hs. clear Hs.
  induction s as [|c s IH]; rewrite title_re_search_eq in H.
  - discriminate.
  - destruct (match_here (String c s)) as [g'|] eqn:E.
    + injection H as <-. unfold match_here in E.
      destruct (Str.startswith (String c s) "<title>") eqn:P; [|discriminate].
      apply startswith_split in P as [r Hr]. rewrite Hr in E |- *.
      change 7%nat with (String.length "<title>") in E. rewrite drop_app in E.
      destruct (lazy_group_shortest _ _ E) as (Hn & b & Hb & Hf).
      split; [exact Hn|]. exists ""%string, b.
      split; [now rewrite Hb | now rewrite <- Hb].
    + destruct (IH H) as (Hn & a & b & Hab & Hf).
      split; [exact Hn|]. exists (String c a), b.
      split; [now rewrite Hab | exact Hf].
Qed.

Lemma found_title_is_tagged_witness :
  extract_title (mkResponse 200 "<html><title>Home</title><p>x</title>")
  = Ok "Home".
Proof.
  apply (found_title_is_tagged
           (mkResponse 200 "<html><title>Home</title><p>x</title>") "Home").
  reflexivity.
Defined.

(** X15.  A content whose first [<title>] is followed by a title without a
    newline and then by the first [</title>] gives that title, whatever
    stands before the tag and after the closing tag. *)
Theorem title_of_first_tag (status : Z) (a g b : string) :
  let body := (a ++ "<title>" ++ g ++ "</title>" ++ b)%string in
  Str.find body "<title>" = len a ->
  Str.find (g ++ "</title>" ++ b) "</title>" = len g ->
  occurs newline g = false ->
  extract_title (mkResponse status body) = Ok g.
Proof.
  intros body Ha Hg Hn. unfold extract_title. simpl content.
  unfold body. rewrite (title_re_search_skip _ _ Ha).
  rewrite title_re_search_eq. unfold match_here.
  rewrite startswith_app.
  change 7%nat with (String.length "<title>"). rewrite drop_app.
  now rewrite (lazy_group_complete _ _ Hg Hn).
Qed.

Lemma title_of_first_tag_witness :
  extract_title
    (mkResponse 200 "<html><head><title>News of the day</title></head>")
  = Ok "News of the day".
Proof.
  apply (title_of_first_tag 200 "<html><head>" "News of the day" "</head>");
    reflexivity.
Defined.

(** ** Last updates under a clock that does not run backwards *)

(** X16.  On a table with primary keys whose rows were all last updated at
    or before now, the tracking middleware leaves every row it keeps with
    a last update that is the same or later: the row under a key of the old
    table is afterwards that row itself or the row saved now. *)
Theorem last_update_never_decreases
    (env : Env) (request : HttpRequest) (now : datetime) (db : Store)
    (r r' : Visitor) (t : datetime) :
  let db' := snd (process_request env request now db) in
  wf db ->
  (forall x u, In x (rows db) -> last_update x = Some u -> u <= now) ->
  In r (rows db) -> In r' (rows db') -> pk r' = pk r ->
  last_update r = Some t ->
  exists t', last_update r' = Some t' /\ t <= t' /\ (r' = r \/ t' = now).
Proof.
  intros db' Hwf Hpast Hr Hr' Hpk Ht.
  assert (Hsame : In r' (rows db) -> exists t',
             last_update r' = Some t' /\ t <= t' /\ (r' = r \/ t' = now)).
  { intros Hin. destruct Hwf as [ND _].
    rewrite (NoDup_map_pk_inj _ _ _ ND Hin Hr Hpk).
    exists t. repeat split; [exact Ht | lia | now left]. }
  unfold db' in Hr'. destruct (tracked env request) eqn:Htr.
  - destruct (resolve request now db) as [[w|e] db1] eqn:Hres.
    + destruct (resolve_cases _ _ _ _ _ Hres) as [-> _].
      rewrite (process_request_resolved _ _ _ _ _ _ Htr Hres) in Hr'.
      cbn [snd] in Hr'.
      apply save_row_rows in Hr' as [Hin| ->]; [now apply Hsame|].
      exists now. split.
      * unfold stored. destruct (pk (touch request now w)); reflexivity.
      * split; [exact (Hpast r t Hr Ht) | now right].
    + destruct (resolve_raises _ _ _ _ _ Hres) as (_ & -> & _).
      rewrite (process_request_raised _ _ _ _ _ _ Htr Hres) in Hr'.
      now apply Hsame.
  - rewrite process_request_untracked in Hr' by exact Htr. now apply Hsame.
Qed.

Lemma last_update_never_decreases_witness :
  exists t',
    last_update (touch Sample.rotated (Sample.minutes 4)
                       (set_session_key Sample.seen "s2")) = Some t'
    /\ Sample.t0 <= t'.
Proof.
  destruct (last_update_never_decreases Sample.env Sample.rotated
              (Sample.minutes 4) Sample.one_visitor Sample.seen
              (touch Sample.rotated (Sample.minutes 4)
                     (set_session_key Sample.seen "s2")) Sample.t0)
    as (t' & Hl & Hle & _).
  - split; simpl.
    + constructor; [simpl; tauto | constructor].
    + constructor; [|constructor]. exists 1. split; [reflexivity | lia].
  - intros x u [<-|[]] E. injection E as <-.
    unfold Sample.minutes, timedelta_minutes. lia.
  - now left.
  - left. reflexivity.
  - reflexivity.
  - reflexivity.
  - exists t'. split; [exact Hl | exact Hle].
Defined.
